(** * pyexchange: the OKEX client and its order-book model

    A shallow embedding of [pyexchange/model.py] and [pyexchange/okex.py].
    Python values are given Rocq types as follows:
    - [int] is [Z]; [bool] is [bool]; [str] is [string], read as a sequence
      of characters with code points below 256; [bytes] is [list Z], every
      element in 0..255;
    - an exception is a value of [exn]; a call that may raise returns an
      [outcome];
    - the objects [json()] returns are values of [pyobj], a [dict] being the
      list of its items in insertion order;
    - the network is a transport function from the requests issued so far
      and the current request to the outcome of [requests.get] or
      [requests.post]; client methods thread the list of issued requests
      through a state and error monad.
    Logging is left out. *)

From Stdlib Require Import ZArith Lia String Ascii List Bool.
From Stdlib Require Import SpecFloat DecimalString QArith Qcanon.
From stdpp Require Import gmap strings list fin_maps.

#[local] Open Scope string_scope.
#[local] Open Scope list_scope.
#[local] Open Scope Z_scope.

(** * Exceptions and results *)

(** The exceptions the modelled code can raise.  [Exception msg] is a plain
    [raise Exception(msg)] of the sources; the others are raised by the
    interpreter or by a library on the given operation. *)
Inductive exn : Type :=
  | Exception (msg : string)
  | KeyError (key : string)
  | TypeError
  | ValueError
  | OverflowError
  | ZeroDivisionError
  | RequestException (msg : string).

Inductive outcome (A : Type) : Type :=
  | Returned (a : A)
  | Raised (e : exn).
Arguments Returned {A} a.
Arguments Raised {A} e.

#[global] Instance outcome_ret : MRet outcome := fun A a => Returned a.
#[global] Instance outcome_bind : MBind outcome := fun A B f m =>
  match m with
  | Returned a => f a
  | Raised e => Raised e
  end.
#[global] Instance outcome_fmap : FMap outcome := fun A B f m =>
  match m with
  | Returned a => Returned (f a)
  | Raised e => Raised e
  end.

(** * Python strings and bytes *)

Definition bytes : Type := list Z.

Definition ord (c : ascii) : Z := Z.of_N (N_of_ascii c).
Definition chr (n : Z) : ascii := ascii_of_N (Z.to_N n).

Definition codes (s : string) : list Z := ord <$> list_ascii_of_string s.
Definition of_codes (l : list Z) : string := string_of_list_ascii (chr <$> l).

Definition between (lo hi c : Z) : bool := (lo <=? c) && (c <=? hi).

(** [str(n)] for an [int]. *)
Definition str_int (n : Z) : string := NilZero.string_of_int (Z.to_int n).

(** [sep.join(parts)]. *)
Fixpoint join (sep : string) (parts : list string) : string :=
  match parts with
  | [] => ""
  | [x] => x
  | x :: rest => x +:+ sep +:+ join sep rest
  end.

(** [str.upper]: letters of the model's range are moved to their capital;
    the sharp s becomes two capitals.  The two letters whose capital lies
    beyond code point 255 (the micro sign and y with diaeresis) are kept as
    they are. *)
Definition upper_code (c : Z) : list Z :=
  if between 97 122 c then [c - 32]
  else if between 224 254 c && negb (c =? 247) then [c - 32]
  else if c =? 223 then [83; 83]
  else [c].
Definition upper (s : string) : string := of_codes (codes s ≫= upper_code).

(** [bytes(s, encoding='utf-8')]. *)
Definition encode_utf8 (s : string) : bytes :=
  codes s ≫= fun c => if c <? 128 then [c] else [192 + c / 64; 128 + c mod 64].

Definition hex_digit (capital : bool) (d : Z) : Z :=
  if d <? 10 then 48 + d else (if capital then 55 else 87) + d.
Definition hex_byte (capital : bool) (c : Z) : list Z :=
  [hex_digit capital (c / 16); hex_digit capital (c mod 16)].

(** [repr(s)] for a [str]: the quote is the double one only when the text
    holds a single quote and no double one; the quote and the backslash are
    escaped, tab, line feed and carriage return get their letter, and any
    other character that is not printable is written [\xhh]. *)
Definition printable (c : Z) : bool :=
  between 32 126 c || (between 161 255 c && negb (c =? 173)).
Definition repr_code (quote c : Z) : list Z :=
  if (c =? quote) || (c =? 92) then [92; c]
  else if c =? 9 then [92; 116]
  else if c =? 10 then [92; 110]
  else if c =? 13 then [92; 114]
  else if printable c then [c]
  else [92; 120] ++ hex_byte false c.
Definition repr_str (s : string) : string :=
  let l := codes s in
  let quote := if bool_decide (39 ∈ l) && negb (bool_decide (34 ∈ l)) then 34 else 39 in
  of_codes ([quote] ++ (l ≫= repr_code quote) ++ [quote]).

(** [urllib.parse.quote_plus(s)]: letters, digits and [_.-~] are kept, a
    space becomes [+], every other byte of the UTF-8 encoding becomes
    [%XX]. *)
Definition always_safe (c : Z) : bool :=
  between 65 90 c || between 97 122 c || between 48 57 c
  || bool_decide (c ∈ [95; 46; 45; 126]).
Definition quote_byte (c : Z) : list Z :=
  if always_safe c then [c]
  else if c =? 32 then [43]
  else 37 :: hex_byte true c.
Definition quote_plus (s : string) : string := of_codes (encode_utf8 s ≫= quote_byte).

(** [int(s)] for a [str]: white space around is dropped, one sign is
    allowed, then decimal digits, single underscores allowed between two
    digits. *)
Definition is_space (c : Z) : bool := bool_decide (c ∈ [9; 10; 11; 12; 13; 32; 133; 160]).
Fixpoint strip_left (l : list Z) : list Z :=
  match l with
  | c :: l' => if is_space c then strip_left l' else l
  | [] => []
  end.
Definition strip (l : list Z) : list Z := reverse (strip_left (reverse (strip_left l))).
Fixpoint parse_digits (l : list Z) (acc : Z) (after_digit : bool) : option Z :=
  match l with
  | [] => if after_digit then Some acc else None
  | c :: l' =>
      if between 48 57 c then parse_digits l' (10 * acc + (c - 48)) true
      else if (c =? 95) && after_digit then parse_digits l' acc false
      else None
  end.
Definition int_of_str (s : string) : option Z :=
  match strip (codes s) with
  | 45 :: l => Z.opp <$> parse_digits l 0 false
  | 43 :: l => parse_digits l 0 false
  | l => parse_digits l 0 false
  end.

(** * Hashing and encoding *)

(** SHA-256 (FIPS 180-4) on 32-bit words kept in [Z]; [hmac.new(key, msg,
    digestmod='sha256').digest()] (RFC 2104) and [base64.b64encode]. *)
Definition word (x : Z) : Z := x mod 2 ^ 32.
Definition rotr (n x : Z) : Z := Z.lor (Z.shiftr x n) (word (Z.shiftl x (32 - n))).

Definition is_prime (n : Z) : bool :=
  (2 <=? n) && forallb (fun d => negb (n mod d =? 0)) (seqZ 2 (Z.sqrt n - 1)).
Definition primes : list Z := filter (fun n => Is_true (is_prime n)) (seqZ 2 310).

(** The integer [e]-th root of [x], one bit at a time from bit [k-1] down. *)
Fixpoint root_bits (k : nat) (e x r : Z) : Z :=
  match k with
  | O => r
  | S k' => let r' := r + 2 ^ Z.of_nat k' in
            root_bits k' e x (if r' ^ e <=? x then r' else r)
  end.
(** The first 32 bits of the fractional part of the [e]-th root of [p]. *)
Definition frac32 (e p : Z) : Z := word (root_bits 48 e (p * 2 ^ (32 * e)) 0).

(** Round constants: cube roots of the first 64 primes; initial hash value:
    square roots of the first 8. *)
Definition sha_K : list Z := Eval vm_compute in frac32 3 <$> primes.
Definition sha_H0 : list Z := Eval vm_compute in frac32 2 <$> take 8 primes.

Definition big_endian (width : nat) (x : Z) : bytes :=
  (fun i => Z.shiftr x (8 * i) mod 256) <$> reverse (seqZ 0 (Z.of_nat width)).
Definition from_big_endian (b : bytes) : Z :=
  foldl (fun acc x => acc * 256 + x) 0 b.

Definition sha_pad (msg : bytes) : bytes :=
  let n := Z.of_nat (length msg) in
  msg ++ [128] ++ replicate (Z.to_nat ((55 - n) mod 64)) 0 ++ big_endian 8 (8 * n).

Fixpoint chunks {A} (k : nat) (fuel : nat) (l : list A) : list (list A) :=
  match fuel, l with
  | _, [] => []
  | O, _ => []
  | S fuel', _ => take k l :: chunks k fuel' (drop k l)
  end.

Definition small_sigma0 (x : Z) : Z :=
  Z.lxor (Z.lxor (rotr 7 x) (rotr 18 x)) (Z.shiftr x 3).
Definition small_sigma1 (x : Z) : Z :=
  Z.lxor (Z.lxor (rotr 17 x) (rotr 19 x)) (Z.shiftr x 10).
Definition big_sigma0 (x : Z) : Z :=
  Z.lxor (Z.lxor (rotr 2 x) (rotr 13 x)) (rotr 22 x).
Definition big_sigma1 (x : Z) : Z :=
  Z.lxor (Z.lxor (rotr 6 x) (rotr 11 x)) (rotr 25 x).
Definition choose (x y z : Z) : Z :=
  Z.lxor (Z.land x y) (Z.land (Z.lxor x (2 ^ 32 - 1)) z).
Definition majority (x y z : Z) : Z :=
  Z.lxor (Z.lxor (Z.land x y) (Z.land x z)) (Z.land y z).

(** The message schedule; [w] holds the words so far, newest first. *)
Fixpoint schedule (n : nat) (w : list Z) : list Z :=
  match n with
  | O => reverse w
  | S n' =>
      let get i := default 0 (w !! i) in
      schedule n' (word (small_sigma1 (get 1%nat) + get 6%nat
                         + small_sigma0 (get 14%nat) + get 15%nat) :: w)
  end.

Definition sha_round (s : list Z) (kw : Z * Z) : list Z :=
  match s with
  | [a; b; c; d; e; f; g; h] =>
      let t1 := h + big_sigma1 e + choose e f g + kw.1 + kw.2 in
      let t2 := big_sigma0 a + majority a b c in
      [word (t1 + t2); a; b; c; word (d + t1); e; f; g]
  | _ => s
  end.

Definition sha_block (h : list Z) (block : bytes) : list Z :=
  let w := schedule 48 (reverse (from_big_endian <$> chunks 4 16 block)) in
  zip_with (fun x y => word (x + y)) h (foldl sha_round h (zip sha_K w)).

Definition sha256 (msg : bytes) : bytes :=
  let padded := sha_pad msg in
  mjoin (big_endian 4 <$> foldl sha_block sha_H0 (chunks 64 (length padded) padded)).

Definition hmac_sha256 (key msg : bytes) : bytes :=
  let k := if 64 <? Z.of_nat (length key) then sha256 key else key in
  let k := k ++ replicate (64 - length k) 0 in
  sha256 ((Z.lxor 92 <$> k) ++ sha256 ((Z.lxor 54 <$> k) ++ msg)).

Definition b64_alphabet : list Z :=
  codes "ABCDEFGHIJKLMNOPQRSTUVWXYZabcdefghijklmnopqrstuvwxyz0123456789+/".
Definition b64_char (i : Z) : Z := default 0 (b64_alphabet !! Z.to_nat i).
Fixpoint b64encode (b : bytes) : bytes :=
  match b with
  | [] => []
  | [x] => [b64_char (x / 4); b64_char (x mod 4 * 16); 61; 61]
  | [x; y] => [b64_char (x / 4); b64_char (x mod 4 * 16 + y / 16);
               b64_char (y mod 16 * 4); 61]
  | x :: y :: z :: rest =>
      [b64_char (x / 4); b64_char (x mod 4 * 16 + y / 16);
       b64_char (y mod 16 * 4 + z / 64); b64_char (z mod 64)] ++ b64encode rest
  end.

(** * The fixed-point amount *)

(** Modelled from the spec: the fixed-point amount type, class [Wad] of the
    package [pymaker], which the sources import and which is not part of
    them.  The spec describes an exact decimal number with defined precision
    supporting add, subtract, multiply, divide and reciprocal, equal to
    another amount iff the decimal values are equal, and printed as a
    decimal string; it leaves the precision and the rounding open.  This
    module fixes one reading, used for the orders and for the worked
    examples: the integer [value] counts units of 10^-18, sums and
    differences are exact, a product or quotient is cut to 18 decimals, and
    dividing by zero raises.  The round trip of [inverse] is not stated on
    this reading but for any exact arithmetic, in [Generic] below. *)
Module Wad.
Record t : Type := mk { value : Z }.

Definition DECIMALS : Z := 18.
Definition UNIT : Z := 10 ^ DECIMALS.

(** [Wad.from_number(number)], for an integer [number]. *)
Definition from_number (number : Z) : t := mk (number * UNIT).

Definition __add__ (self other : t) : t := mk (value self + value other).
Definition __sub__ (self other : t) : t := mk (value self - value other).
Definition __mul__ (self other : t) : t :=
  mk ((value self * value other) ÷ UNIT).
Definition __truediv__ (self other : t) : outcome t :=
  if value other =? 0 then Raised ZeroDivisionError
  else Returned (mk ((value self * UNIT) ÷ value other)).
Definition __eq__ (self other : t) : bool := value self =? value other.

(** [str(wad)]: the sign, the whole part, a point and the 18 decimals. *)
Definition __str__ (self : t) : string :=
  let v := Z.abs (value self) in
  let frac := str_int (v mod UNIT) in
  (if value self <? 0 then "-" else "")
  +:+ str_int (v / UNIT) +:+ "."
  +:+ of_codes (replicate (Z.to_nat DECIMALS - String.length frac) 48) +:+ frac.
End Wad.

(** * model.py *)

(** ** [class BookItem] *)
Module BookItem.
Record t : Type := mk { price : Wad.t; amount : Wad.t }.

(** The keyword arguments are evaluated in order, the quotient first. *)
Definition inverse (self : t) : outcome t :=
  p ← Wad.__truediv__ (Wad.from_number 1) (price self);
  mret (mk p (Wad.__mul__ (amount self) (price self))).
End BookItem.

(** ** [class Book] *)
Module Book.
Record t : Type := mk { bids : list BookItem.t; asks : list BookItem.t }.

(** The constructor turns the lazy [map] over [self.asks] into the new
    [bids] first, then the one over [self.bids] into the new [asks]. *)
Definition inverse (self : t) : outcome t :=
  new_bids ← mapM BookItem.inverse (asks self);
  new_asks ← mapM BookItem.inverse (bids self);
  mret (mk new_bids new_asks).
End Book.

(** ** [class Candle] *)
Module Candle.
Record t : Type := mk {
  timestamp : Z; open : Wad.t; close : Wad.t;
  high : Wad.t; low : Wad.t; volume : Wad.t }.
End Candle.

(** ** [BookItem] and [Book] over an amount type taken as a parameter *)

Module Generic.

(** Modelled from the spec: what [model.py] uses of the amount type, which
    is not among the sources: the amount [Wad.from_number(1)], the product,
    and the quotient, which may raise; [zero] is the amount by which one
    cannot divide. *)
Class Amount (A : Type) : Type := mkAmount {
  zero : A;
  one : A;
  mul : A → A → A;
  truediv : A → A → outcome A }.


(** [class BookItem] *)
Module BookItem.
Record t (A : Type) : Type := mk { price : A; amount : A }.
Arguments mk {A} price amount.
Arguments price {A} _.
Arguments amount {A} _.

Definition inverse {A} `{Amount A} (self : t A) : outcome (t A) :=
  p ← truediv one (price self);
  mret (mk p (mul (amount self) (price self))).
End BookItem.

(** [class Book] *)
Module Book.
Record t (A : Type) : Type := mk { bids : list (BookItem.t A); asks : list (BookItem.t A) }.
Arguments mk {A} bids asks.
Arguments bids {A} _.
Arguments asks {A} _.

Definition inverse {A} `{Amount A} (self : t A) : outcome (t A) :=
  new_bids ← mapM BookItem.inverse (asks self);
  new_asks ← mapM BookItem.inverse (bids self);
  mret (mk new_bids new_asks).
End Book.

End Generic.

(** The 18-decimal reading of [Wad] is an instance, and on it the generic
    [inverse] is [BookItem.inverse]. *)
#[global] Instance Wad_amount : Generic.Amount Wad.t :=
  Generic.mkAmount Wad.t (Wad.mk 0) (Wad.from_number 1) Wad.__mul__ Wad.__truediv__.


(** * okex.py *)

(** ** [class Order] *)
Module Order.
Record t : Type := mk {
  order_id : Z; timestamp : Z; pair : string; is_sell : bool;
  price : Wad.t; amount : Wad.t; deal_amount : Wad.t }.

Definition sell_to_buy_price (self : t) : Wad.t := price self.
Definition buy_to_sell_price (self : t) : Wad.t := price self.

Definition remaining_buy_amount (self : t) : Wad.t :=
  if is_sell self
  then Wad.__mul__ (Wad.__sub__ (amount self) (deal_amount self)) (price self)
  else Wad.__sub__ (amount self) (deal_amount self).

Definition remaining_sell_amount (self : t) : Wad.t :=
  if is_sell self
  then Wad.__sub__ (amount self) (deal_amount self)
  else Wad.__mul__ (Wad.__sub__ (amount self) (deal_amount self)) (price self).

Definition __eq__ (self other : t) : bool :=
  (order_id self =? order_id other) && String.eqb (pair self) (pair other).

(** [hash] is the built-in hash of a tuple of an [int] and a [str]. *)
Definition __hash__ (hash : Z * string → Z) (self : t) : Z :=
  hash (order_id self, pair self).
End Order.

(** ** [class Trade] *)
Module Trade.
Record t : Type := mk {
  trade_id : Z; timestamp : Z; is_sell : bool;
  price : Wad.t; amount : Wad.t; amount_symbol : string }.

Definition __eq__ (self other : t) : bool :=
  (trade_id self =? trade_id other) && (timestamp self =? timestamp other)
  && Bool.eqb (is_sell self) (is_sell other)
  && Wad.__eq__ (price self) (price other)
  && Wad.__eq__ (amount self) (amount other)
  && String.eqb (amount_symbol self) (amount_symbol other).
End Trade.

(** ** Python objects met by the client *)

(** A [float]: the binary value, and the text [repr] prints for it (the
    shortest decimal that reads back as the same value), taken as data. *)
Record pyfloat : Type := mkFloat { float_value : spec_float; float_repr : string }.

(** What [json()] can return, and what the signature helper is given: a
    [dict] keeps its items in insertion order, its keys are strings. *)
#[warnings="-register-all"]
Inductive pyobj : Type :=
  | VNone
  | VBool (b : bool)
  | VInt (n : Z)
  | VFloat (f : pyfloat)
  | VStr (s : string)
  | VList (l : list pyobj)
  | VDict (d : list (string * pyobj)).

(** [repr(v)]. *)
Fixpoint py_repr (v : pyobj) : string :=
  match v with
  | VNone => "None"
  | VBool b => if b then "True" else "False"
  | VInt n => str_int n
  | VFloat f => float_repr f
  | VStr s => repr_str s
  | VList l => "[" +:+ join ", " (List.map py_repr l) +:+ "]"
  | VDict d =>
      "{" +:+ join ", " (List.map (fun '(k, x) => repr_str k +:+ ": " +:+ py_repr x) d)
      +:+ "}"
  end.

(** [str(v)]. *)
Definition py_str (v : pyobj) : string :=
  match v with
  | VStr s => s
  | _ => py_repr v
  end.

(** [d[key]] on the items of a [dict]. *)
Fixpoint dict_get (key : string) (d : list (string * pyobj)) : option pyobj :=
  match d with
  | [] => None
  | (k, x) :: d' => if String.eqb k key then Some x else dict_get key d'
  end.

(** [v[key]] for a string [key]: only a [dict] can be indexed by a string. *)
Definition getitem (v : pyobj) (key : string) : outcome pyobj :=
  match v with
  | VDict d =>
      match dict_get key d with
      | Some x => Returned x
      | None => Raised (KeyError key)
      end
  | _ => Raised TypeError
  end.

(** [key in v] for a string [key]: a key of a [dict], an element of a
    [list], a part of a [str]; other objects are not containers. *)
Definition is_substring (key s : string) : bool :=
  match String.index 0 key s with
  | Some _ => true
  | None => false
  end.
Definition contains (key : string) (v : pyobj) : outcome bool :=
  match v with
  | VDict d => Returned (bool_decide (is_Some (dict_get key d)))
  | VList l =>
      Returned (existsb (fun x => match x with VStr s => String.eqb s key | _ => false end) l)
  | VStr s => Returned (is_substring key s)
  | _ => Raised TypeError
  end.

(** [int(f)] for a [float]: the value cut toward zero. *)
Definition int_of_float (f : spec_float) : outcome Z :=
  match f with
  | S754_zero _ => Returned 0
  | S754_infinity _ => Raised OverflowError
  | S754_nan => Raised ValueError
  | S754_finite s m e =>
      let n := if 0 <=? e then Z.pos m * 2 ^ e else Z.pos m / 2 ^ (- e) in
      Returned (if s then - n else n)
  end.

(** [int(v)]. *)
Definition py_int (v : pyobj) : outcome Z :=
  match v with
  | VInt n => Returned n
  | VBool b => Returned (if b then 1 else 0)
  | VFloat f => int_of_float (float_value f)
  | VStr s =>
      match int_of_str s with
      | Some n => Returned n
      | None => Raised ValueError
      end
  | _ => Raised TypeError
  end.

(** [urllib.parse.urlencode(params)] for a [dict]. *)
Definition urlencode (params : list (string * pyobj)) : string :=
  join "&" ((fun '(k, x) => quote_plus k +:+ "=" +:+ quote_plus (py_str x)) <$> params).

(** ** The HTTP transport *)

Inductive header_value : Type :=
  | HStr (s : string)
  | HBytes (b : bytes).

(** A call of [requests.get] or [requests.post] with its keyword arguments;
    an argument that is not passed is [None]. *)
Record Request : Type := mkRequest {
  req_method : string;
  req_url : string;
  req_data : option string;
  req_headers : option (gmap string header_value);
  req_timeout : option pyfloat }.

(** What the client reads of a [requests.Response]: [json] is [None] when
    [json()] raises, the body being no JSON text. *)
Record Response : Type := mkResponse {
  ok : bool;
  status_code : Z;
  reason : string;
  body : string;
  json : option pyobj }.

(** Modelled from the spec: [http_response_summary] of the package
    [pymaker], which is not part of the sources; the error context the spec
    asks for: the HTTP status and the response body without its line
    breaks, cut to 2048 characters. *)
Definition http_response_summary (response : Response) : string :=
  let flat := filter (fun c => c ≠ 13 ∧ c ≠ 10) (codes (body response)) in
  str_int (status_code response) +:+ " " +:+ reason response
  +:+ " (" +:+ of_codes (take 2048 flat) +:+ ")".

(** The requests issued so far, oldest first. *)
Definition World : Type := list Request.

(** A computation of the client: it may issue requests and may raise. *)
Definition client (A : Type) : Type := World → outcome A * World.

#[global] Instance client_ret : MRet client := fun A a w => (Returned a, w).
#[global] Instance client_bind : MBind client := fun A B f m w =>
  match m w with
  | (Returned a, w') => f a w'
  | (Raised e, w') => (Raised e, w')
  end.

Definition lift {A} (r : outcome A) : client A := fun w => (r, w).
Definition raise {A} (e : exn) : client A := lift (Raised e).

(** ** [class OKEXApi] *)
Module OKEXApi.
Record t : Type := mk {
  api_server : string;
  api_key : string;
  secret_key : string;
  passphrase : string;
  timeout : pyfloat }.

(** [_create_signature] *)
Definition _create_signature (self : t) (timestamp : pyobj) (method request_path : string)
    (body : pyobj) (secret_key : string) : bytes :=
  let body :=
    if String.eqb (py_str body) "{}" || String.eqb (py_str body) "None"
    then VStr "" else body in
  let message := py_str timestamp +:+ upper method +:+ request_path +:+ py_str body in
  let d := hmac_sha256 (encode_utf8 secret_key) (encode_utf8 message) in
  b64encode d.

(** [_result] *)
Definition _result (result : Response) (check_result : bool) : outcome pyobj :=
  if negb (ok result) then
    Raised (Exception ("OKCoin API invalid HTTP response: " +:+ http_response_summary result))
  else
    match json result with
    | None =>
        Raised (Exception ("OKCoin API invalid JSON response: "
                           +:+ http_response_summary result))
    | Some data =>
        if check_result then
          found ← contains "error_code" data;
          if found : bool then
            Raised (Exception ("OKCoin API negative response: "
                               +:+ http_response_summary result))
          else Returned data
        else Returned data
    end.

Section Methods.
(** The network: the outcome of a request, given those issued before. *)
Variable transport : World → Request → outcome Response.

Definition requests_get (url : string) (headers : option (gmap string header_value))
    (timeout : option pyfloat) : client Response := fun w =>
  let r := mkRequest "GET" url None headers timeout in
  (transport w r, w ++ [r]).

Definition requests_post (url data : string) (headers : gmap string header_value)
    (timeout : pyfloat) : client Response := fun w =>
  let r := mkRequest "POST" url (Some data) (Some headers) (Some timeout) in
  (transport w r, w ++ [r]).

(** [_get_server_timestamp] *)
Definition _get_server_timestamp (self : t) : client pyobj :=
  response ← requests_get (api_server self +:+ "/api/general/v3/time") None None;
  data ← lift (_result response false);
  lift (getitem data "iso").

(** [_okex_header] *)
Definition _okex_header (self : t) (method request_path body : string)
    : client (gmap string header_value) :=
  timestamp ← _get_server_timestamp self;
  let message := py_str timestamp +:+ upper method +:+ request_path +:+ body in
  let d := hmac_sha256 (encode_utf8 (secret_key self)) (encode_utf8 message) in
  let sign := b64encode d in
  let header : gmap string header_value := ∅ in
  let header := <["Content-Type" := HStr "application/json"]> header in
  let header := <["OK-ACCESS-KEY" := HStr (api_key self)]> header in
  let header := <["OK-ACCESS-SIGN" := HBytes sign]> header in
  let header := <["OK-ACCESS-TIMESTAMP" := HStr (py_str timestamp)]> header in
  let header := <["OK-ACCESS-PASSPHRASE" := HStr (passphrase self)]> header in
  mret header.

(** [_http_get] *)
Definition _http_get (self : t) (resource params : string) (check_result : bool)
    : client pyobj :=
  let resource :=
    if negb (String.eqb params "") then resource +:+ "?" +:+ params else resource in
  let url := api_server self +:+ resource in
  okex_header ← _okex_header self "GET" resource "";
  response ← requests_get url (Some okex_header) (Some (timeout self));
  lift (_result response check_result).

(** [_http_post]: the arguments of [requests.post] are evaluated in
    order, the encoded [data] before the headers. *)
Definition _http_post (self : t) (resource : string) (params : list (string * pyobj))
    : client pyobj :=
  let url := api_server self +:+ resource in
  let data := urlencode params in
  headers ← _okex_header self "POST" resource (py_str (VDict params));
  response ← requests_post url data headers (timeout self);
  lift (_result response true).

Definition ticker (self : t) (pair : string) : client pyobj :=
  _http_get self ("/api/spot/v3/instruments/" +:+ pair +:+ "ticker") "" true.

Definition depth (self : t) (pair : string) : client pyobj :=
  _http_get self ("/api/spot/v3/instruments/" +:+ pair +:+ "/book") "" true.

Definition get_balances (self : t) : client pyobj :=
  _http_get self "/api/spot/v3/accounts" "" true.

(** [place_order]; the two log lines are left out. *)
Definition place_order (self : t) (pair : string) (is_sell : bool)
    (price amount : Wad.t) : client Z :=
  result ← _http_post self "/api/spot/v3/orders"
    [("instrument_id", VStr pair);
     ("side", VStr (if is_sell then "sell" else "buy"));
     ("type", VStr "limit");
     ("price", VStr (Wad.__str__ price));
     ("size", VStr (Wad.__str__ amount))];
  order_id ← lift (getitem result "order_id" ≫= py_int);
  bol_result ← lift (getitem result "result" ≫= py_int);
  mret order_id.

(** [cancel_order]; the log lines are left out. *)
Definition cancel_order (self : t) (pair : string) (order_id : Z) : client bool :=
  result ← _http_post self ("/api/spot/v3/cancel_orders/" +:+ str_int order_id)
    [("instrument_id", VStr pair)];
  echoed ← lift (getitem result "order_id" ≫= py_int);
  let success := echoed =? order_id in
  mret success.

(** [get_trades] *)
Definition get_trades (self : t) (pair : string) (page_number : Z) : client pyobj :=
  raise (Exception "get_trades() not available for OKEX").

(** [get_all_trades] *)
Definition get_all_trades (self : t) (pair : string) (page_number : Z)
    : client (list Trade.t) :=
  raise (Exception "get_trades() not available for OKEX").
End Methods.
End OKEXApi.

(** * Inputs used by the examples below *)


Definition example_api : OKEXApi.t :=
  OKEXApi.mk "https://www.okex.com" "key" "secret" "pass"
             (mkFloat (S754_finite false 19 (-1)) "9.5").

Definition example_time : pyobj :=
  VDict [("iso", VStr "2018-09-01T00:00:00.000Z"); ("epoch", VStr "1535760000.000")].

Definition respond (data : pyobj) : outcome Response :=
  Returned (mkResponse true 200 "OK" (py_repr data) (Some data)).

(** A server that tells the time and answers [answer] to anything else. *)
Definition example_server (answer : pyobj) : World → Request → outcome Response :=
  fun _ r =>
    if String.eqb (req_url r) "https://www.okex.com/api/general/v3/time"
    then respond example_time
    else respond answer.

Definition one_and_a_half : pyfloat := mkFloat (S754_finite false 3 (-1)) "1.5".

(** The request [_get_server_timestamp] issues. *)
Definition time_request (self : OKEXApi.t) : Request :=
  mkRequest "GET" (OKEXApi.api_server self +:+ "/api/general/v3/time") None None None.

(** The value of the [OK-ACCESS-SIGN] header for a message. *)
Definition sign_of (secret_key message : string) : bytes :=
  b64encode (hmac_sha256 (encode_utf8 secret_key) (encode_utf8 message)).

(** The headers [_okex_header] builds from a timestamp and a signature. *)
Definition okex_headers (self : OKEXApi.t) (timestamp : pyobj) (sign : bytes)
    : gmap string header_value :=
  <["OK-ACCESS-PASSPHRASE" := HStr (OKEXApi.passphrase self)]>
    (<["OK-ACCESS-TIMESTAMP" := HStr (py_str timestamp)]>
      (<["OK-ACCESS-SIGN" := HBytes sign]>
        (<["OK-ACCESS-KEY" := HStr (OKEXApi.api_key self)]>
          (<["Content-Type" := HStr "application/json"]> ∅)))).

(** The parameters [place_order] posts. *)
Definition order_params (pair : string) (is_sell : bool) (price amount : Wad.t)
    : list (string * pyobj) :=
  [("instrument_id", VStr pair);
   ("side", VStr (if is_sell then "sell" else "buy"));
   ("type", VStr "limit");
   ("price", VStr (Wad.__str__ price));
   ("size", VStr (Wad.__str__ amount))].

(** The request [_http_post] issues once the server time [timestamp] is
    known, and the one [_http_get] issues. *)
Definition post_request (self : OKEXApi.t) (timestamp : pyobj) (resource : string)
    (params : list (string * pyobj)) : Request :=
  mkRequest "POST" (OKEXApi.api_server self +:+ resource)
    (Some (urlencode params))
    (Some (okex_headers self timestamp
             (sign_of (OKEXApi.secret_key self)
                (py_str timestamp +:+ "POST" +:+ resource +:+ py_str (VDict params)))))
    (Some (OKEXApi.timeout self)).

Definition get_request (self : OKEXApi.t) (timestamp : pyobj) (resource : string)
    : Request :=
  mkRequest "GET" (OKEXApi.api_server self +:+ resource) None
    (Some (okex_headers self timestamp
             (sign_of (OKEXApi.secret_key self)
                (py_str timestamp +:+ "GET" +:+ resource +:+ ""))))
    (Some (OKEXApi.timeout self)).

(** The first character of a string. *)
Definition head_char (s : string) : option ascii :=
  match s with
  | String c _ => Some c
  | EmptyString => None
  end.

(** A network on which every request fails. *)
Definition unreachable_server : World → Request → outcome Response :=
  fun _ _ => Raised (RequestException "connection refused").

(** * Properties *)

Lemma from_number_1 : Wad.value (Wad.from_number 1) * Wad.UNIT = Wad.UNIT * Wad.UNIT.
Proof. reflexivity. Qed.

Lemma truediv_returns (a b : Wad.t) :
  Wad.value b ≠ 0 →
  Wad.__truediv__ a b = Returned (Wad.mk ((Wad.value a * Wad.UNIT) ÷ Wad.value b)).
Proof.
  intros Hb. unfold Wad.__truediv__.
  destruct (Z.eqb_spec (Wad.value b) 0); [contradiction | reflexivity].
Qed.

Lemma truediv_by_zero (a b : Wad.t) :
  Wad.value b = 0 → Wad.__truediv__ a b = Raised ZeroDivisionError.
Proof. intros Hb. unfold Wad.__truediv__. rewrite Hb. reflexivity. Qed.

Lemma inverse_returns (level : BookItem.t) :
  Wad.value (BookItem.price level) ≠ 0 →
  BookItem.inverse level =
    Returned (BookItem.mk
      (Wad.mk ((Wad.UNIT * Wad.UNIT) ÷ Wad.value (BookItem.price level)))
      (Wad.mk ((Wad.value (BookItem.amount level) * Wad.value (BookItem.price level))
               ÷ Wad.UNIT))).
Proof.
  intros Hp. unfold BookItem.inverse.
  rewrite (truediv_returns _ _ Hp), from_number_1. reflexivity.
Qed.

Lemma mapM_Returned {A B} (f : A → outcome B) (l : list A) (k : list B) :
  mapM f l = Returned k ↔ Forall2 (λ x y, f x = Returned y) l k.
Proof.
  revert k. induction l as [|x l IH]; intros k; simpl.
  - split.
    + intros [= <-]. constructor.
    + intros H. inversion H. reflexivity.
  - split.
    + destruct (f x) as [y|e] eqn:Hx; simpl; [|discriminate].
      destruct (mapM f l) as [k'|e] eqn:Hl; simpl; [|discriminate].
      intros [= <-]. constructor; [exact Hx | apply IH; reflexivity].
    + intros H. inversion H as [|? y ? k' Hx Hl]; subst.
      rewrite Hx. simpl. apply IH in Hl. rewrite Hl. reflexivity.
Qed.

(** ** The round trip of [inverse], for exact arithmetic *)





(** On the 18-decimal reading the generic [inverse] is [BookItem.inverse]. *)
Lemma BookItem_inverse_generic (level : BookItem.t) :
  BookItem.inverse level
  = (λ g, BookItem.mk (Generic.BookItem.price g) (Generic.BookItem.amount g))
    <$> Generic.BookItem.inverse
          (Generic.BookItem.mk (BookItem.price level) (BookItem.amount level)).
Proof.
  unfold BookItem.inverse, Generic.BookItem.inverse. simpl.
  destruct (Wad.__truediv__ (Wad.from_number 1) (BookItem.price level)); reflexivity.
Qed.





(** C5: [remaining_buy_amount] is (amount - deal_amount) * price for a sell
    order and amount - deal_amount otherwise, [remaining_sell_amount] the
    other way round; a sell order of amount 10, deal amount 3 and price 2 has
    7 left to sell and 14 left to buy. *)
Theorem Order_remaining_amounts :
  (∀ o : Order.t,
     Order.remaining_buy_amount o
     = (if Order.is_sell o
        then Wad.__mul__ (Wad.__sub__ (Order.amount o) (Order.deal_amount o)) (Order.price o)
        else Wad.__sub__ (Order.amount o) (Order.deal_amount o))
     ∧ Order.remaining_sell_amount o
       = (if Order.is_sell o
          then Wad.__sub__ (Order.amount o) (Order.deal_amount o)
          else Wad.__mul__ (Wad.__sub__ (Order.amount o) (Order.deal_amount o))
                           (Order.price o)))
  ∧ (∀ (order_id timestamp : Z) (pair : string),
       let o := Order.mk order_id timestamp pair true
                  (Wad.from_number 2) (Wad.from_number 10) (Wad.from_number 3) in
       Order.remaining_sell_amount o = Wad.from_number 7
       ∧ Order.remaining_buy_amount o = Wad.from_number 14).
Proof.
  split.
  - intros o. split; reflexivity.
  - intros order_id timestamp pair o. split; vm_compute; reflexivity.
Qed.

(** C8: two orders are equal iff their [order_id] and [pair] are; orders
    with the same id and pair are equal whatever their other fields. *)
Theorem Order_eq_identity :
  (∀ a b : Order.t,
     Order.__eq__ a b = true
     ↔ Order.order_id a = Order.order_id b ∧ Order.pair a = Order.pair b)
  ∧ (∀ (order_id : Z) (pair : string) (t1 t2 : Z) (s1 s2 : bool)
       (p1 p2 a1 a2 d1 d2 : Wad.t),
       Order.__eq__ (Order.mk order_id t1 pair s1 p1 a1 d1)
                    (Order.mk order_id t2 pair s2 p2 a2 d2) = true).
Proof.
  assert (H : ∀ a b : Order.t,
     Order.__eq__ a b = true
     ↔ Order.order_id a = Order.order_id b ∧ Order.pair a = Order.pair b).
  { intros a b. unfold Order.__eq__.
    rewrite andb_true_iff, Z.eqb_eq, String.eqb_eq. reflexivity. }
  split; [exact H|].
  intros. apply H. split; reflexivity.
Qed.

(** C2: [get_trades] and [get_all_trades] raise the "not available"
    exception for every pair and page number, and leave the list of issued
    requests as it was. *)
Theorem get_trades_unsupported (self : OKEXApi.t) (pair : string) (page_number : Z)
    (w : World) :
  OKEXApi.get_trades self pair page_number w
  = (Raised (Exception "get_trades() not available for OKEX"), w)
  ∧ OKEXApi.get_all_trades self pair page_number w
    = (Raised (Exception "get_trades() not available for OKEX"), w).
Proof. split; reflexivity. Qed.

(** Hashes are computed, never unfolded by hand. *)
#[local] Opaque hmac_sha256 b64encode sha256.

(** ** The client monad *)

Lemma bind_Returned {A B} (m : client A) (f : A → client B) (w w1 : World) (a : A) :
  m w = (Returned a, w1) → (m ≫= f) w = f a w1.
Proof. intros H. unfold mbind, client_bind. rewrite H. reflexivity. Qed.

Lemma bind_Raised {A B} (m : client A) (f : A → client B) (w w1 : World) (e : exn) :
  m w = (Raised e, w1) → (m ≫= f) w = (Raised e, w1).
Proof. intros H. unfold mbind, client_bind. rewrite H. reflexivity. Qed.

Lemma bind_inv {A B} (m : client A) (f : A → client B) (w w' : World) (b : B) :
  (m ≫= f) w = (Returned b, w') →
  ∃ a w1, m w = (Returned a, w1) ∧ f a w1 = (Returned b, w').
Proof.
  unfold mbind, client_bind. destruct (m w) as [[a|e] w1]; [|discriminate].
  intros H. exists a, w1. split; [reflexivity | exact H].
Qed.

(** ** [_get_server_timestamp] and [_okex_header] *)

Lemma get_server_timestamp_log tr self w r w1 :
  OKEXApi._get_server_timestamp tr self w = (r, w1) → w1 = w ++ [time_request self].
Proof.
  unfold OKEXApi._get_server_timestamp, OKEXApi.requests_get, mbind, client_bind, lift.
  fold (time_request self).
  destruct (tr w (time_request self)) as [response|e]; [|intros [= _ <-]; reflexivity].
  destruct (OKEXApi._result response false) as [data|e]; intros [= _ <-]; reflexivity.
Qed.

Lemma okex_header_Returned tr self method path body w ts w1 :
  OKEXApi._get_server_timestamp tr self w = (Returned ts, w1) →
  OKEXApi._okex_header tr self method path body w
  = (Returned (okex_headers self ts
       (sign_of (OKEXApi.secret_key self) (py_str ts +:+ upper method +:+ path +:+ body))),
     w1).
Proof. intros H. unfold OKEXApi._okex_header. rewrite (bind_Returned _ _ _ _ _ H). reflexivity. Qed.

Lemma okex_header_Raised tr self method path body w e w1 :
  OKEXApi._get_server_timestamp tr self w = (Raised e, w1) →
  OKEXApi._okex_header tr self method path body w = (Raised e, w1).
Proof. intros H. unfold OKEXApi._okex_header. apply bind_Raised. exact H. Qed.

(** ** [place_order] *)

Lemma place_order_run tr self pair is_sell price amount w data w' :
  OKEXApi._http_post tr self "/api/spot/v3/orders"
    (order_params pair is_sell price amount) w = (Returned data, w') →
  OKEXApi.place_order tr self pair is_sell price amount w
  = (order_id ← getitem data "order_id" ≫= py_int;
     _ ← getitem data "result" ≫= py_int;
     Returned order_id, w').
Proof.
  intros Hpost. unfold OKEXApi.place_order. fold (order_params pair is_sell price amount).
  rewrite (bind_Returned _ _ _ _ _ Hpost).
  unfold lift, mbind, client_bind, outcome_bind.
  destruct (getitem data "order_id") as [v|e]; [|reflexivity].
  destruct (py_int v) as [n|e]; [|reflexivity].
  destruct (getitem data "result") as [v'|e]; [|reflexivity].
  destruct (py_int v') as [n'|e]; reflexivity.
Qed.

(** C7 (as amended): once the server has answered the order request with
    the parsed body [data], a call that returns gives [int] of the field
    [order_id] of [data], which is that field when it is an integer; and
    when the field is missing or [int] rejects it the call raises the
    exception of that step. *)
Theorem place_order_echo tr self pair is_sell price amount w data w' :
  OKEXApi._http_post tr self "/api/spot/v3/orders"
    (order_params pair is_sell price amount) w = (Returned data, w') →
  (∀ n, OKEXApi.place_order tr self pair is_sell price amount w = (Returned n, w')
        ↔ getitem data "order_id" ≫= py_int = Returned n
          ∧ ∃ r, getitem data "result" ≫= py_int = Returned r)
  ∧ (∀ n m, getitem data "order_id" = Returned (VInt n) →
            OKEXApi.place_order tr self pair is_sell price amount w = (Returned m, w') →
            m = n)
  ∧ (∀ e, getitem data "order_id" ≫= py_int = Raised e →
          OKEXApi.place_order tr self pair is_sell price amount w = (Raised e, w')).
Proof.
  intros Hpost. rewrite (place_order_run _ _ _ _ _ _ _ _ _ Hpost).
  assert (Hmain : ∀ n,
    (order_id ← getitem data "order_id" ≫= py_int;
     _ ← getitem data "result" ≫= py_int; Returned order_id, w') = (Returned n, w')
    ↔ getitem data "order_id" ≫= py_int = Returned n
      ∧ ∃ r, getitem data "result" ≫= py_int = Returned r).
  { intros n.
    destruct (getitem data "order_id" ≫= py_int) as [k|e]; simpl.
    - destruct (getitem data "result" ≫= py_int) as [r|e]; simpl.
      + split; [intros [= ->]; eauto | intros ([= ->] & _); reflexivity].
      + split; [discriminate | intros (_ & r & [=])].
    - split; [discriminate | intros ([=] & _)]. }
  split; [exact Hmain|]. split.
  - intros n m Hn Hm. apply Hmain in Hm as [Hm _].
    rewrite Hn in Hm. simpl in Hm. congruence.
  - intros e He. rewrite He. reflexivity.
Qed.

Lemma place_order_echo_witness :
  let tr := example_server (VDict [("order_id", VStr "2510789768709120");
                                   ("result", VBool true)]) in
  let data := VDict [("order_id", VStr "2510789768709120"); ("result", VBool true)] in
  let price := Wad.from_number 2 in
  let amount := Wad.from_number 1 in
  let w' := snd (OKEXApi._http_post tr example_api "/api/spot/v3/orders"
                   (order_params "ETH-USDT" true price amount) []) in
  (∀ n, OKEXApi.place_order tr example_api "ETH-USDT" true price amount [] = (Returned n, w')
        ↔ getitem data "order_id" ≫= py_int = Returned n
          ∧ ∃ r, getitem data "result" ≫= py_int = Returned r)
  ∧ (∀ n m, getitem data "order_id" = Returned (VInt n) →
            OKEXApi.place_order tr example_api "ETH-USDT" true price amount []
            = (Returned m, w') →
            m = n)
  ∧ (∀ e, getitem data "order_id" ≫= py_int = Raised e →
          OKEXApi.place_order tr example_api "ETH-USDT" true price amount []
          = (Raised e, w')).
Proof.
  intros tr data price amount w'.
  apply (place_order_echo tr example_api "ETH-USDT" true price amount [] data w').
  vm_compute. reflexivity.
Defined.

(** C7, as stated, fails: the body holds the order id 1.5, no integer, and
    the call returns 1. *)
Lemma place_order_float_id :
  let data := VDict [("order_id", VFloat one_and_a_half); ("result", VBool true)] in
  getitem data "order_id" = Returned (VFloat one_and_a_half)
  ∧ fst (OKEXApi.place_order (example_server data) example_api "ETH-USDT" true
           (Wad.from_number 2) (Wad.from_number 1) []) = Returned 1.
Proof. split; vm_compute; reflexivity. Qed.

(** ** [_result] *)

(** C9 (as amended): a response that is not [ok] is refused; so is one
    whose body is no JSON; with result checking, so is one for which
    ['error_code' in data] holds (for an object: it has the field), and one
    whose parsed body is no container at all, for which the test itself
    raises; in every other case the parsed body is returned. *)
Theorem result_validation (response : Response) (check_result : bool) :
  (ok response = false →
     ∃ msg, OKEXApi._result response check_result = Raised (Exception msg))
  ∧ (ok response = true → json response = None →
     ∃ msg, OKEXApi._result response check_result = Raised (Exception msg))
  ∧ (∀ data, ok response = true → json response = Some data →
       (check_result = true → contains "error_code" data = Returned true →
          ∃ msg, OKEXApi._result response check_result = Raised (Exception msg))
       ∧ (∀ d, check_result = true → data = VDict d → is_Some (dict_get "error_code" d) →
          ∃ msg, OKEXApi._result response check_result = Raised (Exception msg))
       ∧ (∀ e, check_result = true → contains "error_code" data = Raised e →
          e = TypeError ∧ OKEXApi._result response check_result = Raised TypeError)
       ∧ (check_result = false ∨ contains "error_code" data = Returned false →
          OKEXApi._result response check_result = Returned data)).
Proof.
  unfold OKEXApi._result. split; [|split].
  - intros ->. simpl. eauto.
  - intros -> ->. simpl. eauto.
  - intros data Hok Hjson. rewrite Hok, Hjson. simpl. split; [|split; [|split]].
    + intros -> Hc. rewrite Hc. simpl. eauto.
    + intros d -> -> Hd. simpl. rewrite bool_decide_eq_true_2 by exact Hd. simpl. eauto.
    + intros e -> He.
      assert (e = TypeError) as -> by (destruct data; simpl in He; congruence).
      rewrite He. split; reflexivity.
    + intros [-> | Hc]; [reflexivity|].
      rewrite Hc. simpl. destruct check_result; reflexivity.
Qed.

(** C9, as stated, fails: the body [5] is valid JSON without an error-code
    field, and with result checking the call raises instead of returning
    it. *)
Lemma result_scalar_body :
  let response := mkResponse true 200 "OK" "5" (Some (VInt 5)) in
  ok response = true ∧ json response = Some (VInt 5)
  ∧ OKEXApi._result response true = Raised TypeError
  ∧ OKEXApi._result response true ≠ Returned (VInt 5).
Proof.
  intros response. split; [reflexivity|]. split; [reflexivity|].
  assert (H : OKEXApi._result response true = Raised TypeError) by (vm_compute; reflexivity).
  split; [exact H | rewrite H; discriminate].
Qed.

(** ** [_create_signature] *)

(** C10: a body printed as [{}] or as [None] is signed as the empty
    string. *)
Theorem create_signature_empty_body (self : OKEXApi.t) (timestamp : pyobj)
    (method request_path : string) (body : pyobj) (secret_key : string) :
  py_str body = "{}" ∨ py_str body = "None" →
  OKEXApi._create_signature self timestamp method request_path body secret_key
  = OKEXApi._create_signature self timestamp method request_path (VStr "") secret_key
  ∧ OKEXApi._create_signature self timestamp method request_path body secret_key
    = sign_of secret_key (py_str timestamp +:+ upper method +:+ request_path +:+ "").
Proof.
  intros H. unfold OKEXApi._create_signature, sign_of.
  assert (Hb : String.eqb (py_str body) "{}" || String.eqb (py_str body) "None" = true).
  { destruct H as [-> | ->]; reflexivity. }
  rewrite Hb. change (py_str (VStr "")) with "". split; reflexivity.
Qed.

Lemma create_signature_empty_body_witness :
  py_str (VDict []) = "{}"
  ∧ OKEXApi._create_signature example_api (VStr "2018-09-01T00:00:00.000Z") "post"
      "/api/spot/v3/orders" (VDict []) "secret"
    = OKEXApi._create_signature example_api (VStr "2018-09-01T00:00:00.000Z") "post"
        "/api/spot/v3/orders" (VStr "") "secret".
Proof.
  split; [reflexivity|].
  apply (create_signature_empty_body example_api (VStr "2018-09-01T00:00:00.000Z") "post"
           "/api/spot/v3/orders" (VDict []) "secret").
  left. reflexivity.
Defined.

(** ** What [_http_get] and [_http_post] send *)

Lemma upper_GET : upper "GET" = "GET".
Proof. vm_compute. reflexivity. Qed.

Lemma upper_POST : upper "POST" = "POST".
Proof. vm_compute. reflexivity. Qed.

Lemma http_post_run tr self resource params w ts w1 :
  OKEXApi._get_server_timestamp tr self w = (Returned ts, w1) →
  OKEXApi._http_post tr self resource params w
  = (tr w1 (post_request self ts resource params) ≫= λ response,
       OKEXApi._result response true,
     w1 ++ [post_request self ts resource params]).
Proof.
  intros Hts. unfold OKEXApi._http_post.
  rewrite (bind_Returned _ _ _ _ _ (okex_header_Returned _ _ "POST" resource _ _ _ _ Hts)).
  rewrite upper_POST. fold (post_request self ts resource params).
  unfold mbind at 1, client_bind, OKEXApi.requests_post, lift.
  fold (post_request self ts resource params).
  destruct (tr w1 (post_request self ts resource params)); reflexivity.
Qed.

Lemma http_get_run tr self resource check_result w ts w1 :
  OKEXApi._get_server_timestamp tr self w = (Returned ts, w1) →
  OKEXApi._http_get tr self resource "" check_result w
  = (tr w1 (get_request self ts resource) ≫= λ response,
       OKEXApi._result response check_result,
     w1 ++ [get_request self ts resource]).
Proof.
  intros Hts. unfold OKEXApi._http_get. simpl negb. cbv iota.
  rewrite (bind_Returned _ _ _ _ _ (okex_header_Returned _ _ "GET" resource _ _ _ _ Hts)).
  rewrite upper_GET. fold (get_request self ts resource).
  unfold mbind at 1, client_bind, OKEXApi.requests_get, lift.
  fold (get_request self ts resource).
  destruct (tr w1 (get_request self ts resource)); reflexivity.
Qed.

Lemma http_no_timestamp tr self w e w1 :
  OKEXApi._get_server_timestamp tr self w = (Raised e, w1) →
  (∀ resource params, OKEXApi._http_post tr self resource params w = (Raised e, w1))
  ∧ (∀ resource params check_result,
       OKEXApi._http_get tr self resource params check_result w = (Raised e, w1)).
Proof.
  intros Hts. split; intros; unfold OKEXApi._http_post, OKEXApi._http_get;
    apply bind_Raised, okex_header_Raised, Hts.
Qed.

(** ** The two serializations of the parameters *)

Lemma head_char_app (s1 s2 : string) :
  head_char (s1 +:+ s2) = match head_char s1 with Some c => Some c | None => head_char s2 end.
Proof. destruct s1; reflexivity. Qed.

Lemma ord_chr (c : Z) : 0 ≤ c < 256 → ord (chr c) = c.
Proof.
  intros Hc. unfold ord, chr. rewrite N_ascii_embedding by lia. lia.
Qed.

Lemma always_safe_range (c : Z) : always_safe c = true → 0 ≤ c < 256 ∧ c ≠ 123.
Proof.
  unfold always_safe, between.
  rewrite !orb_true_iff, !andb_true_iff, !Z.leb_le, bool_decide_eq_true.
  rewrite !elem_of_cons, elem_of_nil. lia.
Qed.

Lemma head_quote_byte (c : Z) (l : list Z) :
  ∃ a, head_char (of_codes (quote_byte c ++ l)) = Some a ∧ a ≠ "{"%char.
Proof.
  unfold quote_byte. destruct (always_safe c) eqn:Hs.
  - apply always_safe_range in Hs as [Hr Hc]. exists (chr c). split; [reflexivity|].
    intros H. apply (f_equal ord) in H. rewrite ord_chr in H by exact Hr.
    apply Hc. rewrite H. reflexivity.
  - destruct (c =? 32); eexists; (split; [reflexivity | discriminate]).
Qed.

Lemma head_quote_plus (s : string) :
  head_char (quote_plus s) = None
  ∨ ∃ a, head_char (quote_plus s) = Some a ∧ a ≠ "{"%char.
Proof.
  unfold quote_plus. destruct (encode_utf8 s) as [|c l]; [left; reflexivity | right].
  change ((c :: l) ≫= quote_byte) with (quote_byte c ++ (l ≫= quote_byte)).
  apply head_quote_byte.
Qed.

Lemma head_urlencode (params : list (string * pyobj)) :
  head_char (urlencode params) ≠ Some "{"%char.
Proof.
  unfold urlencode. destruct params as [|[k x] rest]; [discriminate|].
  assert (H : ∀ tail, ∃ a, head_char (quote_plus k +:+ "=" +:+ tail) = Some a
                           ∧ a ≠ "{"%char).
  { intros tail. rewrite head_char_app.
    destruct (head_quote_plus k) as [-> | (a & -> & Ha)].
    - eexists. split; [reflexivity | discriminate].
    - exists a. split; [reflexivity | exact Ha]. }
  rewrite fmap_cons. cbv beta iota.
  destruct (H (quote_plus (py_str x))) as (a & Ha & Hne).
  destruct (_ <$> rest) as [|b l].
  - change (join "&" [?s]) with s. rewrite Ha. congruence.
  - change (join "&" (?s :: b :: l)) with (s +:+ "&" +:+ join "&" (b :: l)).
    rewrite head_char_app, Ha. congruence.
Qed.

Lemma repr_dict_not_urlencode (params : list (string * pyobj)) :
  py_str (VDict params) ≠ urlencode params.
Proof.
  intros H. apply (head_urlencode params). rewrite <- H. reflexivity.
Qed.

(** C1 fails on a POST.  Cancelling order 42 of ETH-USDT, with the server
    time 2018-09-01T00:00:00.000Z and the secret key "secret", sends the
    body [instrument_id=ETH-USDT], while the [OK-ACCESS-SIGN] header is the
    signature of the message that ends in [{'instrument_id': 'ETH-USDT'}],
    which is not the signature of the message ending in the body sent. *)
Theorem http_post_signs_other_body :
  let params := [("instrument_id", VStr "ETH-USDT")] in
  let resource := "/api/spot/v3/cancel_orders/42" in
  let prefix := "2018-09-01T00:00:00.000ZPOST/api/spot/v3/cancel_orders/42" in
  let w := snd (OKEXApi._http_post (example_server (VDict [])) example_api
                  resource params []) in
  ∃ (r : Request) (headers : gmap string header_value),
    w = [time_request example_api; r]
    ∧ req_method r = "POST"
    ∧ req_data r = Some "instrument_id=ETH-USDT"
    ∧ req_headers r = Some headers
    ∧ headers !! "OK-ACCESS-SIGN"
      = Some (HBytes (sign_of "secret" (prefix +:+ "{'instrument_id': 'ETH-USDT'}")))
    ∧ sign_of "secret" (prefix +:+ "{'instrument_id': 'ETH-USDT'}")
      = codes "bklwfA8U9diYSQFVkPUrqhKUvn+bJ82e2ilg6ObiX6I="
    ∧ sign_of "secret" (prefix +:+ "instrument_id=ETH-USDT")
      ≠ sign_of "secret" (prefix +:+ "{'instrument_id': 'ETH-USDT'}").
Proof.
  intros params resource prefix w.
  exists (post_request example_api (VStr "2018-09-01T00:00:00.000Z") resource params).
  eexists.
  split; [vm_compute; reflexivity|].
  split; [reflexivity|].
  split; [vm_compute; reflexivity|].
  split; [reflexivity|].
  split; [vm_compute; reflexivity|].
  split; [vm_compute; reflexivity|].
  intros H. vm_compute in H. discriminate H.
Qed.

(** * Further properties of the model *)

(** ** [BookItem.inverse] and [Book.inverse] on any input *)

Lemma inverse_cases (level : BookItem.t) :
  (∀ e, BookItem.inverse level = Raised e
        ↔ Wad.value (BookItem.price level) = 0 ∧ e = ZeroDivisionError)
  ∧ (∀ back, BookItem.inverse level = Returned back
        ↔ Wad.value (BookItem.price level) ≠ 0
          ∧ back = BookItem.mk
              (Wad.mk (10 ^ 36 ÷ Wad.value (BookItem.price level)))
              (Wad.mk ((Wad.value (BookItem.amount level)
                        * Wad.value (BookItem.price level)) ÷ 10 ^ 18))).
Proof.
  change (10 ^ 36) with (Wad.UNIT * Wad.UNIT). change (10 ^ 18) with Wad.UNIT.
  destruct (Z.eq_dec (Wad.value (BookItem.price level)) 0) as [H0 | Hp].
  - assert (H : BookItem.inverse level = Raised ZeroDivisionError).
    { unfold BookItem.inverse. rewrite truediv_by_zero by exact H0. reflexivity. }
    rewrite H. split.
    + intros e. split; [intros [= <-]; auto | intros [_ ->]; reflexivity].
    + intros back. split; [discriminate | intros [Hp _]; contradiction].
  - rewrite inverse_returns by exact Hp. split.
    + intros e. split; [discriminate | intros [H0 _]; contradiction].
    + intros back. split; [intros [= <-]; auto | intros [_ ->]; reflexivity].
Qed.

Lemma mapM_Raised {A B} (f : A → outcome B) (l : list A) (e : exn) :
  mapM f l = Raised e → ∃ x, x ∈ l ∧ f x = Raised e.
Proof.
  induction l as [|x l IH]; simpl; [discriminate|].
  destruct (f x) as [y|e'] eqn:Hx; simpl.
  - destruct (mapM f l) as [k|e'] eqn:Hl; simpl; [discriminate|].
    intros [= ->]. destruct (IH eq_refl) as (x' & Hin & Hx').
    exists x'. split; [right; exact Hin | exact Hx'].
  - intros [= ->]. exists x. split; [left | exact Hx].
Qed.

Lemma mapM_inverse_returns (levels : list BookItem.t) :
  Forall (λ level, Wad.value (BookItem.price level) ≠ 0) levels →
  ∃ back, mapM BookItem.inverse levels = Returned back.
Proof.
  induction 1 as [|x l Hx _ [back Hb]]; [exists []; reflexivity|].
  simpl. rewrite (inverse_returns x Hx). simpl. rewrite Hb. simpl. eauto.
Qed.

(** X2: [Book.inverse] returns exactly when no level of the book has a zero
    price, and raises [ZeroDivisionError] otherwise; the book it returns has
    as bids the inverses of the asks and as asks the inverses of the bids,
    level by level in the same order, so the two sides swap their lengths. *)
Theorem Book_inverse_total (book : Book.t) :
  ((∃ mirror, Book.inverse book = Returned mirror)
   ↔ Forall (λ level, Wad.value (BookItem.price level) ≠ 0)
            (Book.asks book ++ Book.bids book))
  ∧ (∀ e, Book.inverse book = Raised e → e = ZeroDivisionError)
  ∧ (∀ mirror, Book.inverse book = Returned mirror
       ↔ Forall2 (λ x y, BookItem.inverse x = Returned y) (Book.asks book) (Book.bids mirror)
         ∧ Forall2 (λ x y, BookItem.inverse x = Returned y) (Book.bids book)
                   (Book.asks mirror))
  ∧ (∀ mirror, Book.inverse book = Returned mirror →
       length (Book.bids mirror) = length (Book.asks book)
       ∧ length (Book.asks mirror) = length (Book.bids book)).
Proof.
  assert (Hshape : ∀ mirror, Book.inverse book = Returned mirror
       ↔ Forall2 (λ x y, BookItem.inverse x = Returned y) (Book.asks book) (Book.bids mirror)
         ∧ Forall2 (λ x y, BookItem.inverse x = Returned y) (Book.bids book)
                   (Book.asks mirror)).
  { intros [bs' as']. unfold Book.inverse. simpl. rewrite <- !mapM_Returned.
    destruct (mapM BookItem.inverse (Book.asks book)) as [k1|e1]; simpl.
    - destruct (mapM BookItem.inverse (Book.bids book)) as [k2|e2]; simpl.
      + split; [intros [= -> ->]; auto | intros [[= ->] [= ->]]; reflexivity].
      + split; [discriminate | intros [_ [=]]].
    - split; [discriminate | intros [[=] _]]. }
  split; [|split; [|split]].
  - split.
    + intros [mirror [Ha Hb]%Hshape]. apply Forall_app. split.
      * apply Forall_forall. intros x Hx.
        destruct (proj1 (list_elem_of_lookup _ _) Hx) as [i Hi].
        destruct (Forall2_lookup_l _ _ _ _ _ Ha Hi) as (y & _ & Hy).
        apply (inverse_cases x) in Hy. tauto.
      * apply Forall_forall. intros x Hx.
        destruct (proj1 (list_elem_of_lookup _ _) Hx) as [i Hi].
        destruct (Forall2_lookup_l _ _ _ _ _ Hb Hi) as (y & _ & Hy).
        apply (inverse_cases x) in Hy. tauto.
    + intros [Ha Hb]%Forall_app.
      destruct (mapM_inverse_returns _ Ha) as [k1 H1].
      destruct (mapM_inverse_returns _ Hb) as [k2 H2].
      exists (Book.mk k1 k2). unfold Book.inverse. rewrite H1. simpl. rewrite H2. reflexivity.
  - intros e. unfold Book.inverse.
    destruct (mapM BookItem.inverse (Book.asks book)) as [k1|e1] eqn:H1; simpl.
    + destruct (mapM BookItem.inverse (Book.bids book)) as [k2|e2] eqn:H2; simpl;
        [discriminate|].
      intros [= ->]. apply mapM_Raised in H2 as (x & _ & Hx).
      apply (inverse_cases x) in Hx. tauto.
    + intros [= ->]. apply mapM_Raised in H1 as (x & _ & Hx).
      apply (inverse_cases x) in Hx. tauto.
  - exact Hshape.
  - intros mirror [Ha Hb]%Hshape.
    apply Forall2_length in Ha, Hb. split; congruence.
Qed.

(** ** Orders and trades *)

(** X5: equality of orders is reflexive, symmetric and transitive, and
    orders that are equal have the same hash, whatever the hash of the pair
    (order_id, pair) is. *)
Theorem Order_eq_equivalence_hash :
  (∀ a : Order.t, Order.__eq__ a a = true)
  ∧ (∀ a b : Order.t, Order.__eq__ a b = Order.__eq__ b a)
  ∧ (∀ a b c : Order.t,
       Order.__eq__ a b = true → Order.__eq__ b c = true → Order.__eq__ a c = true)
  ∧ (∀ (hash : Z * string → Z) (a b : Order.t),
       Order.__eq__ a b = true → Order.__hash__ hash a = Order.__hash__ hash b).
Proof.
  assert (H : ∀ a b : Order.t, Order.__eq__ a b = true
     ↔ Order.order_id a = Order.order_id b ∧ Order.pair a = Order.pair b).
  { intros a b. unfold Order.__eq__.
    rewrite andb_true_iff, Z.eqb_eq, String.eqb_eq. reflexivity. }
  split; [|split; [|split]].
  - intros a. apply H. split; reflexivity.
  - intros a b. unfold Order.__eq__.
    rewrite (Z.eqb_sym (Order.order_id a)), (String.eqb_sym (Order.pair a)). reflexivity.
  - intros a b c [H1 H2]%H [H3 H4]%H. apply H. split; congruence.
  - intros hash a b [H1 H2]%H. unfold Order.__hash__. rewrite H1, H2. reflexivity.
Qed.

(** X6: two trades are equal exactly when all six fields are: the id, the
    timestamp, the side, the price, the amount and the amount symbol. *)
Theorem Trade_eq_all_fields (a b : Trade.t) :
  Trade.__eq__ a b = true ↔ a = b.
Proof.
  destruct a as [i1 t1 s1 [p1] [a1] y1], b as [i2 t2 s2 [p2] [a2] y2].
  unfold Trade.__eq__, Wad.__eq__. simpl.
  rewrite !andb_true_iff, !Z.eqb_eq, String.eqb_eq, Bool.eqb_true_iff.
  split.
  - intros [[[[[-> ->] ->] ->] ->] ->]. reflexivity.
  - intros [= -> -> -> -> -> ->]. repeat split.
Qed.

Lemma remaining_bounds (U a d p : Z) :
  0 < U → 0 ≤ d ≤ a → 0 ≤ p → 0 ≤ ((a - d) * p) ÷ U ∧ (d = a → ((a - d) * p) ÷ U = 0).
Proof.
  intros HU Hd Hp. split.
  - apply Z.quot_pos; nia.
  - intros ->. rewrite Z.sub_diag. reflexivity.
Qed.

(** X7: for an order with a non-negative price whose deal amount lies
    between zero and the amount, both remaining amounts are non-negative;
    when the deal amount equals the amount, both are zero. *)
Theorem Order_remaining_nonneg (o : Order.t) :
  0 ≤ Wad.value (Order.deal_amount o) ≤ Wad.value (Order.amount o) →
  0 ≤ Wad.value (Order.price o) →
  0 ≤ Wad.value (Order.remaining_buy_amount o)
  ∧ 0 ≤ Wad.value (Order.remaining_sell_amount o)
  ∧ (Order.deal_amount o = Order.amount o →
     Order.remaining_buy_amount o = Wad.mk 0
     ∧ Order.remaining_sell_amount o = Wad.mk 0).
Proof.
  destruct o as [i t pr s [p] [a] [d]]. simpl. intros Hd Hp.
  destruct (remaining_bounds Wad.UNIT a d p eq_refl Hd Hp) as [H0 Hz].
  unfold Order.remaining_buy_amount, Order.remaining_sell_amount,
    Wad.__mul__, Wad.__sub__. simpl.
  destruct s; simpl.
  - split; [exact H0|]. split; [lia|].
    intros [= ->]. rewrite Hz by reflexivity. rewrite Z.sub_diag. split; reflexivity.
  - split; [lia|]. split; [exact H0|].
    intros [= ->]. rewrite Hz by reflexivity. rewrite Z.sub_diag. split; reflexivity.
Qed.

Lemma Order_remaining_nonneg_witness :
  let o := Order.mk 7 1535760000 "ETH-USDT" false
             (Wad.from_number 2) (Wad.from_number 10) (Wad.from_number 10) in
  0 ≤ Wad.value (Order.remaining_buy_amount o)
  ∧ 0 ≤ Wad.value (Order.remaining_sell_amount o)
  ∧ (Order.deal_amount o = Order.amount o →
     Order.remaining_buy_amount o = Wad.mk 0
     ∧ Order.remaining_sell_amount o = Wad.mk 0).
Proof.
  intros o. apply (Order_remaining_nonneg o).
  - split; vm_compute; discriminate.
  - vm_compute. discriminate.
Defined.

(** * Further properties of the client *)

Lemma okex_headers_lookup self ts sign :
  okex_headers self ts sign !! "Content-Type" = Some (HStr "application/json")
  ∧ okex_headers self ts sign !! "OK-ACCESS-KEY" = Some (HStr (OKEXApi.api_key self))
  ∧ okex_headers self ts sign !! "OK-ACCESS-SIGN" = Some (HBytes sign)
  ∧ okex_headers self ts sign !! "OK-ACCESS-TIMESTAMP" = Some (HStr (py_str ts))
  ∧ okex_headers self ts sign !! "OK-ACCESS-PASSPHRASE"
    = Some (HStr (OKEXApi.passphrase self))
  ∧ size (okex_headers self ts sign) = 5%nat.
Proof.
  unfold okex_headers. repeat split; by simplify_map_eq.
Qed.

Lemma get_server_timestamp_run tr self w :
  OKEXApi._get_server_timestamp tr self w
  = (response ← tr w (time_request self);
     data ← OKEXApi._result response false;
     getitem data "iso",
     w ++ [time_request self]).
Proof.
  unfold OKEXApi._get_server_timestamp, OKEXApi.requests_get, mbind at 1 2, client_bind, lift.
  fold (time_request self).
  destruct (tr w (time_request self)) as [response|e]; simpl; [|reflexivity].
  destruct (OKEXApi._result response false) as [data|e]; reflexivity.
Qed.

(** X8: [_get_server_timestamp] issues exactly one request, a GET of the
    time endpoint without headers or timeout, whatever the outcome.  It
    returns the field [iso] of the parsed body of an [ok] response, an
    [error_code] field in that body notwithstanding; it raises [KeyError]
    when the body is an object without [iso], and passes on what the
    transport raises. *)
Theorem get_server_timestamp_spec tr (self : OKEXApi.t) (w : World) :
  snd (OKEXApi._get_server_timestamp tr self w)
  = w ++ [mkRequest "GET" (OKEXApi.api_server self +:+ "/api/general/v3/time")
            None None None]
  ∧ (∀ response d ts,
       tr w (time_request self) = Returned response → ok response = true →
       json response = Some (VDict d) → dict_get "iso" d = Some ts →
       fst (OKEXApi._get_server_timestamp tr self w) = Returned ts)
  ∧ (∀ response d,
       tr w (time_request self) = Returned response → ok response = true →
       json response = Some (VDict d) → dict_get "iso" d = None →
       fst (OKEXApi._get_server_timestamp tr self w) = Raised (KeyError "iso"))
  ∧ (∀ e, tr w (time_request self) = Raised e →
       fst (OKEXApi._get_server_timestamp tr self w) = Raised e).
Proof.
  rewrite get_server_timestamp_run. simpl. split; [reflexivity|].
  split; [|split].
  - intros response d ts -> Hok Hjson Hiso. simpl.
    unfold OKEXApi._result. rewrite Hok, Hjson. simpl. rewrite Hiso. reflexivity.
  - intros response d -> Hok Hjson Hiso. simpl.
    unfold OKEXApi._result. rewrite Hok, Hjson. simpl. rewrite Hiso. reflexivity.
  - intros e ->. reflexivity.
Qed.

(** X9: when the server time cannot be obtained, [place_order],
    [cancel_order], [_http_get] and [_http_post] raise what the time request
    raised, and the time request is the only request issued: nothing signed
    is sent. *)
Theorem no_request_without_timestamp tr (self : OKEXApi.t) (w : World) (e : exn) :
  fst (OKEXApi._get_server_timestamp tr self w) = Raised e →
  (∀ pair is_sell price amount,
     OKEXApi.place_order tr self pair is_sell price amount w
     = (Raised e, w ++ [time_request self]))
  ∧ (∀ pair order_id,
       OKEXApi.cancel_order tr self pair order_id w = (Raised e, w ++ [time_request self]))
  ∧ (∀ resource params check_result,
       OKEXApi._http_get tr self resource params check_result w
       = (Raised e, w ++ [time_request self]))
  ∧ (∀ resource params,
       OKEXApi._http_post tr self resource params w = (Raised e, w ++ [time_request self])).
Proof.
  intros He.
  assert (Hts : OKEXApi._get_server_timestamp tr self w = (Raised e, w ++ [time_request self])).
  { destruct (OKEXApi._get_server_timestamp tr self w) as [r w1] eqn:H.
    rewrite (get_server_timestamp_log _ _ _ _ _ H). simpl in He. rewrite He. reflexivity. }
  destruct (http_no_timestamp _ _ _ _ _ Hts) as [Hpost Hget].
  split; [|split; [|split]].
  - intros. unfold OKEXApi.place_order. apply bind_Raised, Hpost.
  - intros. unfold OKEXApi.cancel_order. apply bind_Raised, Hpost.
  - exact Hget.
  - exact Hpost.
Qed.

Lemma no_request_without_timestamp_witness :
  OKEXApi.place_order unreachable_server example_api "ETH-USDT" true
    (Wad.from_number 2) (Wad.from_number 1) []
  = (Raised (RequestException "connection refused"), [time_request example_api]).
Proof.
  apply (no_request_without_timestamp unreachable_server example_api []
           (RequestException "connection refused")).
  reflexivity.
Defined.

(** ** [cancel_order] *)

Lemma result_checked_object (response : Response) (d : list (string * pyobj)) :
  ok response = true → json response = Some (VDict d) → dict_get "error_code" d = None →
  OKEXApi._result response true = Returned (VDict d).
Proof.
  intros Hok Hjson Herr. unfold OKEXApi._result. rewrite Hok, Hjson. simpl.
  rewrite Herr. reflexivity.
Qed.

(** C6: let the server tell the time and then answer the cancellation
    request with an [ok] response whose body is a JSON object without error
    code, whose field [order_id] is the integer [echoed].  Then
    [cancel_order], having sent the time request and that cancellation
    request, returns a boolean, which is [True] iff [echoed] is the order id
    asked for; when the two differ it returns [False] and does not raise. *)
Theorem cancel_order_compares_echo tr (self : OKEXApi.t) (pair : string) (order_id : Z)
    (w : World) (time_response response : Response) (t d : list (string * pyobj))
    (ts : pyobj) (echoed : Z) :
  let request :=
    post_request self ts ("/api/spot/v3/cancel_orders/" +:+ str_int order_id)
      [("instrument_id", VStr pair)] in
  tr w (time_request self) = Returned time_response →
  ok time_response = true → json time_response = Some (VDict t) →
  dict_get "iso" t = Some ts →
  tr (w ++ [time_request self]) request = Returned response →
  ok response = true → json response = Some (VDict d) →
  dict_get "error_code" d = None →
  dict_get "order_id" d = Some (VInt echoed) →
  ∃ success : bool,
    OKEXApi.cancel_order tr self pair order_id w
    = (Returned success, w ++ [time_request self; request])
    ∧ (success = true ↔ echoed = order_id)
    ∧ (echoed ≠ order_id → success = false).
Proof.
  intros request Htime Htok Htjson Hiso Hresp Hok Hjson Herr Hid.
  assert (Hts : OKEXApi._get_server_timestamp tr self w
                = (Returned ts, w ++ [time_request self])).
  { rewrite get_server_timestamp_run, Htime. simpl.
    unfold OKEXApi._result. rewrite Htok, Htjson. simpl. rewrite Hiso. reflexivity. }
  exists (echoed =? order_id). split; [|split].
  - unfold OKEXApi.cancel_order, mbind at 1, client_bind.
    rewrite (http_post_run _ _ _ _ _ _ _ Hts). fold request. rewrite Hresp. simpl.
    rewrite (result_checked_object _ _ Hok Hjson Herr).
    unfold lift, mbind at 1, client_bind. simpl. rewrite Hid. simpl.
    rewrite <- app_assoc. reflexivity.
  - apply Z.eqb_eq.
  - apply Z.eqb_neq.
Qed.

Lemma cancel_order_compares_echo_witness :
  let answer := VDict [("order_id", VInt 43); ("result", VBool true)] in
  ∃ success : bool,
    OKEXApi.cancel_order (example_server answer) example_api "ETH-USDT" 42 []
    = (Returned success,
       [] ++ [time_request example_api;
              post_request example_api (VStr "2018-09-01T00:00:00.000Z")
                ("/api/spot/v3/cancel_orders/" +:+ str_int 42)
                [("instrument_id", VStr "ETH-USDT")]])
    ∧ (success = true ↔ 43 = 42)
    ∧ (43 ≠ 42 → success = false).
Proof.
  intros answer.
  apply (cancel_order_compares_echo (example_server answer) example_api "ETH-USDT" 42 []
           (mkResponse true 200 "OK" (py_repr example_time) (Some example_time))
           (mkResponse true 200 "OK" (py_repr answer) (Some answer))
           [("iso", VStr "2018-09-01T00:00:00.000Z"); ("epoch", VStr "1535760000.000")]
           [("order_id", VInt 43); ("result", VBool true)]
           (VStr "2018-09-01T00:00:00.000Z") 43);
    vm_compute; reflexivity.
Defined.

(** X10: once the server time is known, [place_order] and [cancel_order]
    send their POST before they look at the answer: whatever they return or
    raise, the requests issued are the time request and then that POST. *)
Theorem order_sent_before_validation tr (self : OKEXApi.t) (w w1 : World) (ts : pyobj) :
  OKEXApi._get_server_timestamp tr self w = (Returned ts, w1) →
  (∀ pair is_sell price amount,
     snd (OKEXApi.place_order tr self pair is_sell price amount w)
     = w ++ [time_request self;
             post_request self ts "/api/spot/v3/orders"
               (order_params pair is_sell price amount)])
  ∧ (∀ pair order_id,
       snd (OKEXApi.cancel_order tr self pair order_id w)
       = w ++ [time_request self;
               post_request self ts ("/api/spot/v3/cancel_orders/" +:+ str_int order_id)
                 [("instrument_id", VStr pair)]]).
Proof.
  intros Hts. pose proof (get_server_timestamp_log _ _ _ _ _ Hts) as ->.
  assert (Hlog : ∀ A (k : pyobj → client A) resource params,
    (∀ data w', ∃ r, k data w' = (r, w')) →
    snd ((OKEXApi._http_post tr self resource params ≫= k) w)
    = w ++ [time_request self; post_request self ts resource params]).
  { intros A k resource params Hk. unfold mbind, client_bind.
    rewrite (http_post_run _ _ _ _ _ _ _ Hts).
    assert (Happ : (w ++ [time_request self]) ++ [post_request self ts resource params]
                   = w ++ [time_request self; post_request self ts resource params])
      by (rewrite <- app_assoc; reflexivity).
    destruct (_ ≫= _) as [data|e]; [|exact Happ].
    destruct (Hk data ((w ++ [time_request self])
                       ++ [post_request self ts resource params])) as [r ->].
    exact Happ. }
  split.
  - intros. unfold OKEXApi.place_order. fold (order_params pair is_sell price amount).
    apply Hlog. intros data w'. unfold lift, mbind, client_bind, outcome_bind.
    repeat case_match; simplify_eq; eauto.
  - intros. unfold OKEXApi.cancel_order. apply Hlog. intros data w'.
    unfold lift, mbind, client_bind, outcome_bind.
    repeat case_match; simplify_eq; eauto.
Qed.

Lemma order_sent_before_validation_witness :
  fst (OKEXApi.place_order (example_server (VInt 5)) example_api "ETH-USDT" true
         (Wad.from_number 2) (Wad.from_number 1) []) = Raised TypeError
  ∧ snd (OKEXApi.place_order (example_server (VInt 5)) example_api "ETH-USDT" true
           (Wad.from_number 2) (Wad.from_number 1) [])
    = [] ++ [time_request example_api;
             post_request example_api (VStr "2018-09-01T00:00:00.000Z")
               "/api/spot/v3/orders"
               (order_params "ETH-USDT" true (Wad.from_number 2) (Wad.from_number 1))].
Proof.
  split; [vm_compute; reflexivity|].
  apply (order_sent_before_validation (example_server (VInt 5)) example_api []
           [time_request example_api] (VStr "2018-09-01T00:00:00.000Z")).
  vm_compute. reflexivity.
Defined.

(** X11: once the server time [ts] is known, [_http_post] issues one POST:
    to the server's address followed by the resource, with the url-encoded
    parameters as body, the client's timeout, and five headers, the
    signature being that of [ts], "POST", the resource and [str(params)] and
    the timestamp header being [ts]; its outcome is the validated answer to
    that request, with result checking. *)
Theorem http_post_request tr (self : OKEXApi.t) (resource : string)
    (params : list (string * pyobj)) (w w1 : World) (ts : pyobj) :
  OKEXApi._get_server_timestamp tr self w = (Returned ts, w1) →
  ∃ (r : Request) (headers : gmap string header_value),
    snd (OKEXApi._http_post tr self resource params w) = w1 ++ [r]
    ∧ fst (OKEXApi._http_post tr self resource params w)
      = (tr w1 r ≫= λ response, OKEXApi._result response true)
    ∧ req_method r = "POST"
    ∧ req_url r = OKEXApi.api_server self +:+ resource
    ∧ req_data r = Some (urlencode params)
    ∧ req_timeout r = Some (OKEXApi.timeout self)
    ∧ req_headers r = Some headers
    ∧ size headers = 5%nat
    ∧ headers !! "Content-Type" = Some (HStr "application/json")
    ∧ headers !! "OK-ACCESS-KEY" = Some (HStr (OKEXApi.api_key self))
    ∧ headers !! "OK-ACCESS-PASSPHRASE" = Some (HStr (OKEXApi.passphrase self))
    ∧ headers !! "OK-ACCESS-TIMESTAMP" = Some (HStr (py_str ts))
    ∧ headers !! "OK-ACCESS-SIGN"
      = Some (HBytes (b64encode (hmac_sha256 (encode_utf8 (OKEXApi.secret_key self))
                (encode_utf8 (py_str ts +:+ "POST" +:+ resource
                              +:+ py_str (VDict params)))))).
Proof.
  intros Hts. rewrite (http_post_run _ _ _ _ _ _ _ Hts).
  exists (post_request self ts resource params). eexists.
  destruct (okex_headers_lookup self ts
              (sign_of (OKEXApi.secret_key self)
                 (py_str ts +:+ "POST" +:+ resource +:+ py_str (VDict params))))
    as (H1 & H2 & H3 & H4 & H5 & H6).
  repeat split; first [reflexivity | eassumption].
Qed.

Lemma http_post_request_witness :
  ∃ (r : Request) (headers : gmap string header_value),
    snd (OKEXApi._http_post (example_server (VDict [])) example_api "/api/spot/v3/orders"
           [] []) = [time_request example_api] ++ [r]
    ∧ fst (OKEXApi._http_post (example_server (VDict [])) example_api
             "/api/spot/v3/orders" [] [])
      = (example_server (VDict []) [time_request example_api] r
         ≫= λ response, OKEXApi._result response true)
    ∧ req_method r = "POST"
    ∧ req_url r = OKEXApi.api_server example_api +:+ "/api/spot/v3/orders"
    ∧ req_data r = Some (urlencode [])
    ∧ req_timeout r = Some (OKEXApi.timeout example_api)
    ∧ req_headers r = Some headers
    ∧ size headers = 5%nat
    ∧ headers !! "Content-Type" = Some (HStr "application/json")
    ∧ headers !! "OK-ACCESS-KEY" = Some (HStr (OKEXApi.api_key example_api))
    ∧ headers !! "OK-ACCESS-PASSPHRASE" = Some (HStr (OKEXApi.passphrase example_api))
    ∧ headers !! "OK-ACCESS-TIMESTAMP"
      = Some (HStr (py_str (VStr "2018-09-01T00:00:00.000Z")))
    ∧ headers !! "OK-ACCESS-SIGN"
      = Some (HBytes (b64encode (hmac_sha256 (encode_utf8 (OKEXApi.secret_key example_api))
                (encode_utf8 (py_str (VStr "2018-09-01T00:00:00.000Z") +:+ "POST"
                              +:+ "/api/spot/v3/orders" +:+ py_str (VDict [])))))).
Proof.
  apply (http_post_request (example_server (VDict [])) example_api "/api/spot/v3/orders"
           [] [] [time_request example_api] (VStr "2018-09-01T00:00:00.000Z")).
  vm_compute. reflexivity.
Defined.

Lemma http_get_run_params tr self resource params check_result w ts w1 :
  OKEXApi._get_server_timestamp tr self w = (Returned ts, w1) →
  let path := if String.eqb params "" then resource else resource +:+ "?" +:+ params in
  OKEXApi._http_get tr self resource params check_result w
  = (tr w1 (get_request self ts path) ≫= λ response,
       OKEXApi._result response check_result,
     w1 ++ [get_request self ts path]).
Proof.
  intros Hts path. unfold OKEXApi._http_get.
  replace (if negb (String.eqb params "") then resource +:+ "?" +:+ params else resource)
    with path by (unfold path; destruct (String.eqb params ""); reflexivity).
  rewrite (bind_Returned _ _ _ _ _ (okex_header_Returned _ _ "GET" path _ _ _ _ Hts)).
  rewrite upper_GET. fold (get_request self ts path).
  unfold mbind at 1, client_bind, OKEXApi.requests_get, lift.
  fold (get_request self ts path).
  destruct (tr w1 (get_request self ts path)); reflexivity.
Qed.

(** X12: once the server time [ts] is known, [_http_get] issues one GET
    without a body; the path it signs (the resource, followed by [?] and the
    parameters when there are any) is the path it requests, and the message
    signed ends with that path: the body signed is empty.  Its outcome is
    the validated answer, checked as the caller asked. *)
Theorem http_get_request tr (self : OKEXApi.t) (resource params : string)
    (check_result : bool) (w w1 : World) (ts : pyobj) :
  OKEXApi._get_server_timestamp tr self w = (Returned ts, w1) →
  ∃ (r : Request) (headers : gmap string header_value) (path : string),
    snd (OKEXApi._http_get tr self resource params check_result w) = w1 ++ [r]
    ∧ fst (OKEXApi._http_get tr self resource params check_result w)
      = (tr w1 r ≫= λ response, OKEXApi._result response check_result)
    ∧ (params = "" → path = resource)
    ∧ (params ≠ "" → path = resource +:+ "?" +:+ params)
    ∧ req_method r = "GET"
    ∧ req_url r = OKEXApi.api_server self +:+ path
    ∧ req_data r = None
    ∧ req_timeout r = Some (OKEXApi.timeout self)
    ∧ req_headers r = Some headers
    ∧ headers !! "OK-ACCESS-TIMESTAMP" = Some (HStr (py_str ts))
    ∧ headers !! "OK-ACCESS-SIGN"
      = Some (HBytes (b64encode (hmac_sha256 (encode_utf8 (OKEXApi.secret_key self))
                (encode_utf8 (py_str ts +:+ "GET" +:+ path +:+ ""))))).
Proof.
  intros Hts. rewrite (http_get_run_params _ _ _ _ _ _ _ _ Hts). cbv zeta.
  set (path := if String.eqb params "" then resource else resource +:+ "?" +:+ params).
  exists (get_request self ts path). eexists. exists path.
  destruct (okex_headers_lookup self ts
              (sign_of (OKEXApi.secret_key self) (py_str ts +:+ "GET" +:+ path +:+ "")))
    as (H1 & H2 & H3 & H4 & H5 & H6).
  split; [reflexivity|]. split; [reflexivity|].
  split; [intros ->; reflexivity|].
  split; [intros Hne; unfold path; apply String.eqb_neq in Hne; rewrite Hne; reflexivity|].
  repeat split; first [reflexivity | eassumption].
Qed.

Lemma http_get_request_witness :
  ∃ (r : Request) (headers : gmap string header_value) (path : string),
    snd (OKEXApi._http_get (example_server (VList [])) example_api
           "/api/spot/v3/orders_pending" "instrument_id=ETH-USDT" true [])
    = [time_request example_api] ++ [r]
    ∧ fst (OKEXApi._http_get (example_server (VList [])) example_api
             "/api/spot/v3/orders_pending" "instrument_id=ETH-USDT" true [])
      = (example_server (VList []) [time_request example_api] r
         ≫= λ response, OKEXApi._result response true)
    ∧ ("instrument_id=ETH-USDT" = "" → path = "/api/spot/v3/orders_pending")
    ∧ ("instrument_id=ETH-USDT" ≠ "" →
       path = "/api/spot/v3/orders_pending" +:+ "?" +:+ "instrument_id=ETH-USDT")
    ∧ req_method r = "GET"
    ∧ req_url r = OKEXApi.api_server example_api +:+ path
    ∧ req_data r = None
    ∧ req_timeout r = Some (OKEXApi.timeout example_api)
    ∧ req_headers r = Some headers
    ∧ headers !! "OK-ACCESS-TIMESTAMP"
      = Some (HStr (py_str (VStr "2018-09-01T00:00:00.000Z")))
    ∧ headers !! "OK-ACCESS-SIGN"
      = Some (HBytes (b64encode (hmac_sha256 (encode_utf8 (OKEXApi.secret_key example_api))
                (encode_utf8 (py_str (VStr "2018-09-01T00:00:00.000Z") +:+ "GET"
                              +:+ path +:+ ""))))).
Proof.
  apply (http_get_request (example_server (VList [])) example_api
           "/api/spot/v3/orders_pending" "instrument_id=ETH-USDT" true []
           [time_request example_api] (VStr "2018-09-01T00:00:00.000Z")).
  vm_compute. reflexivity.
Defined.

(** X13: whatever the parameters, the body [_http_post] sends is not the
    body it signs: once the server time [ts] is known the POST carries
    [urlencode(params)], its signature is that of the message ending in
    [str(params)], and the two texts differ. *)
Theorem http_post_body_mismatch tr (self : OKEXApi.t) (resource : string)
    (params : list (string * pyobj)) (w w1 : World) (ts : pyobj) :
  OKEXApi._get_server_timestamp tr self w = (Returned ts, w1) →
  ∃ (r : Request) (headers : gmap string header_value) (sent signed : string),
    snd (OKEXApi._http_post tr self resource params w) = w1 ++ [r]
    ∧ req_data r = Some sent
    ∧ req_headers r = Some headers
    ∧ headers !! "OK-ACCESS-SIGN"
      = Some (HBytes (b64encode (hmac_sha256 (encode_utf8 (OKEXApi.secret_key self))
                (encode_utf8 (py_str ts +:+ "POST" +:+ resource +:+ signed)))))
    ∧ sent = urlencode params
    ∧ signed = py_str (VDict params)
    ∧ signed ≠ sent.
Proof.
  intros Hts. rewrite (http_post_run _ _ _ _ _ _ _ Hts).
  exists (post_request self ts resource params). eexists.
  exists (urlencode params), (py_str (VDict params)).
  destruct (okex_headers_lookup self ts
              (sign_of (OKEXApi.secret_key self)
                 (py_str ts +:+ "POST" +:+ resource +:+ py_str (VDict params))))
    as (_ & _ & H3 & _).
  split; [reflexivity|]. split; [reflexivity|]. split; [reflexivity|].
  split; [exact H3|]. split; [reflexivity|]. split; [reflexivity|].
  apply repr_dict_not_urlencode.
Qed.

Lemma http_post_body_mismatch_witness :
  ∃ (r : Request) (headers : gmap string header_value) (sent signed : string),
    snd (OKEXApi._http_post (example_server (VDict [])) example_api "/api/spot/v3/orders"
           [("instrument_id", VStr "ETH-USDT")] []) = [time_request example_api] ++ [r]
    ∧ req_data r = Some sent
    ∧ req_headers r = Some headers
    ∧ headers !! "OK-ACCESS-SIGN"
      = Some (HBytes (b64encode (hmac_sha256 (encode_utf8 (OKEXApi.secret_key example_api))
                (encode_utf8 (py_str (VStr "2018-09-01T00:00:00.000Z") +:+ "POST"
                              +:+ "/api/spot/v3/orders" +:+ signed)))))
    ∧ sent = urlencode [("instrument_id", VStr "ETH-USDT")]
    ∧ signed = py_str (VDict [("instrument_id", VStr "ETH-USDT")])
    ∧ signed ≠ sent.
Proof.
  apply (http_post_body_mismatch (example_server (VDict [])) example_api
           "/api/spot/v3/orders" [("instrument_id", VStr "ETH-USDT")] []
           [time_request example_api] (VStr "2018-09-01T00:00:00.000Z")).
  vm_compute. reflexivity.
Defined.

(** X14: the signature [_okex_header] puts in the header is the one
    [_create_signature] computes from the same timestamp, method, path, body
    and secret key, unless the body is the text [{}] or [None]: such a body
    is signed as it is by [_okex_header] and as the empty text by
    [_create_signature]. *)
Theorem create_signature_matches_header tr (self : OKEXApi.t)
    (method request_path body : string) (w w1 : World) (ts : pyobj) :
  OKEXApi._get_server_timestamp tr self w = (Returned ts, w1) →
  ∃ (headers : gmap string header_value) (sign : bytes),
    fst (OKEXApi._okex_header tr self method request_path body w) = Returned headers
    ∧ headers !! "OK-ACCESS-SIGN" = Some (HBytes sign)
    ∧ (body ≠ "{}" → body ≠ "None" →
       sign = OKEXApi._create_signature self ts method request_path (VStr body)
                (OKEXApi.secret_key self))
    ∧ (body = "{}" ∨ body = "None" →
       sign = b64encode (hmac_sha256 (encode_utf8 (OKEXApi.secret_key self))
                (encode_utf8 (py_str ts +:+ upper method +:+ request_path +:+ body)))
       ∧ OKEXApi._create_signature self ts method request_path (VStr body)
           (OKEXApi.secret_key self)
         = b64encode (hmac_sha256 (encode_utf8 (OKEXApi.secret_key self))
             (encode_utf8 (py_str ts +:+ upper method +:+ request_path +:+ "")))).
Proof.
  intros Hts. rewrite (okex_header_Returned _ _ method request_path body _ _ _ Hts).
  eexists. eexists. split; [reflexivity|].
  split; [apply okex_headers_lookup|].
  unfold OKEXApi._create_signature, sign_of. change (py_str (VStr body)) with body.
  split.
  - intros H1%String.eqb_neq H2%String.eqb_neq. rewrite H1, H2. reflexivity.
  - intros H. split; [reflexivity|].
    assert (Hb : String.eqb body "{}" || String.eqb body "None" = true)
      by (destruct H as [-> | ->]; reflexivity).
    rewrite Hb. reflexivity.
Qed.

Lemma create_signature_matches_header_witness :
  ∃ (headers : gmap string header_value) (sign : bytes),
    fst (OKEXApi._okex_header (example_server (VDict [])) example_api "get"
           "/api/spot/v3/accounts" "" []) = Returned headers
    ∧ headers !! "OK-ACCESS-SIGN" = Some (HBytes sign)
    ∧ ("" ≠ "{}" → "" ≠ "None" →
       sign = OKEXApi._create_signature example_api (VStr "2018-09-01T00:00:00.000Z")
                "get" "/api/spot/v3/accounts" (VStr "") (OKEXApi.secret_key example_api))
    ∧ ("" = "{}" ∨ "" = "None" →
       sign = b64encode (hmac_sha256 (encode_utf8 (OKEXApi.secret_key example_api))
                (encode_utf8 (py_str (VStr "2018-09-01T00:00:00.000Z") +:+ upper "get"
                              +:+ "/api/spot/v3/accounts" +:+ "")))
       ∧ OKEXApi._create_signature example_api (VStr "2018-09-01T00:00:00.000Z")
           "get" "/api/spot/v3/accounts" (VStr "") (OKEXApi.secret_key example_api)
         = b64encode (hmac_sha256 (encode_utf8 (OKEXApi.secret_key example_api))
             (encode_utf8 (py_str (VStr "2018-09-01T00:00:00.000Z") +:+ upper "get"
                           +:+ "/api/spot/v3/accounts" +:+ "")))).
Proof.
  apply (create_signature_matches_header (example_server (VDict [])) example_api "get"
           "/api/spot/v3/accounts" "" [] [time_request example_api]
           (VStr "2018-09-01T00:00:00.000Z")).
  vm_compute. reflexivity.
Defined.

(** X15: [cancel_order] reads nothing but the field [order_id] of the
    answer: when the answer is an object whose [order_id] is the integer
    asked for it returns [True] whatever the other fields say; when the
    object has no [order_id] it raises [KeyError], and when the answer is no
    object it raises [TypeError]. *)
Theorem cancel_order_reads_id_only tr (self : OKEXApi.t) (pair : string) (order_id : Z)
    (w w' : World) (data : pyobj) :
  OKEXApi._http_post tr self ("/api/spot/v3/cancel_orders/" +:+ str_int order_id)
    [("instrument_id", VStr pair)] w = (Returned data, w') →
  (∀ d, data = VDict d → dict_get "order_id" d = Some (VInt order_id) →
        OKEXApi.cancel_order tr self pair order_id w = (Returned true, w'))
  ∧ (∀ d, data = VDict d → dict_get "order_id" d = None →
        OKEXApi.cancel_order tr self pair order_id w = (Raised (KeyError "order_id"), w'))
  ∧ ((∀ d, data ≠ VDict d) →
        OKEXApi.cancel_order tr self pair order_id w = (Raised TypeError, w')).
Proof.
  intros Hpost. unfold OKEXApi.cancel_order. rewrite (bind_Returned _ _ _ _ _ Hpost).
  unfold lift, mbind at 1 3 5, client_bind.
  split; [|split].
  - intros d -> Hd. simpl. rewrite Hd. simpl. rewrite Z.eqb_refl. reflexivity.
  - intros d -> Hd. simpl. rewrite Hd. reflexivity.
  - intros Hd. destruct data; try reflexivity. exfalso. exact (Hd _ eq_refl).
Qed.

Lemma cancel_order_reads_id_only_witness :
  let tr := example_server (VDict [("result", VBool false); ("order_id", VInt 42)]) in
  OKEXApi.cancel_order tr example_api "ETH-USDT" 42 []
  = (Returned true,
     snd (OKEXApi._http_post tr example_api "/api/spot/v3/cancel_orders/42"
            [("instrument_id", VStr "ETH-USDT")] [])).
Proof.
  intros tr.
  assert (Hpost : OKEXApi._http_post tr example_api
            ("/api/spot/v3/cancel_orders/" +:+ str_int 42)
            [("instrument_id", VStr "ETH-USDT")] []
          = (Returned (VDict [("result", VBool false); ("order_id", VInt 42)]),
             snd (OKEXApi._http_post tr example_api "/api/spot/v3/cancel_orders/42"
                    [("instrument_id", VStr "ETH-USDT")] [])))
    by (vm_compute; reflexivity).
  exact (proj1 (cancel_order_reads_id_only tr example_api "ETH-USDT" 42 [] _ _ Hpost)
           _ eq_refl eq_refl).
Defined.

(** X16: once the server time [ts] is known, [ticker], [depth] and
    [get_balances] each issue one signed GET without query string and return
    its validated answer, with result checking.  The addresses are the
    server's followed by [/api/spot/v3/instruments/], the pair and [ticker]
    (nothing between the pair and [ticker]), by the same with [/book] after
    the pair, and by [/api/spot/v3/accounts]. *)
Theorem market_data_requests tr (self : OKEXApi.t) (pair : string) (w w1 : World)
    (ts : pyobj) :
  OKEXApi._get_server_timestamp tr self w = (Returned ts, w1) →
  ∃ r_ticker r_depth r_balances : Request,
    OKEXApi.ticker tr self pair w
    = (tr w1 r_ticker ≫= λ response, OKEXApi._result response true, w1 ++ [r_ticker])
    ∧ OKEXApi.depth tr self pair w
      = (tr w1 r_depth ≫= λ response, OKEXApi._result response true, w1 ++ [r_depth])
    ∧ OKEXApi.get_balances tr self w
      = (tr w1 r_balances ≫= λ response, OKEXApi._result response true,
         w1 ++ [r_balances])
    ∧ r_ticker = get_request self ts ("/api/spot/v3/instruments/" +:+ pair +:+ "ticker")
    ∧ r_depth = get_request self ts ("/api/spot/v3/instruments/" +:+ pair +:+ "/book")
    ∧ r_balances = get_request self ts "/api/spot/v3/accounts"
    ∧ req_url r_ticker
      = OKEXApi.api_server self +:+ "/api/spot/v3/instruments/" +:+ pair +:+ "ticker"
    ∧ req_url r_depth
      = OKEXApi.api_server self +:+ "/api/spot/v3/instruments/" +:+ pair +:+ "/book"
    ∧ req_url r_balances = OKEXApi.api_server self +:+ "/api/spot/v3/accounts".
Proof.
  intros Hts. do 3 eexists.
  unfold OKEXApi.ticker, OKEXApi.depth, OKEXApi.get_balances.
  rewrite !(http_get_run _ _ _ _ _ _ _ Hts).
  repeat split; reflexivity.
Qed.

Lemma market_data_requests_witness :
  ∃ r_ticker r_depth r_balances : Request,
    OKEXApi.ticker (example_server (VDict [])) example_api "ETH-USDT" []
    = (example_server (VDict []) [time_request example_api] r_ticker
       ≫= λ response, OKEXApi._result response true,
       [time_request example_api] ++ [r_ticker])
    ∧ OKEXApi.depth (example_server (VDict [])) example_api "ETH-USDT" []
      = (example_server (VDict []) [time_request example_api] r_depth
         ≫= λ response, OKEXApi._result response true,
         [time_request example_api] ++ [r_depth])
    ∧ OKEXApi.get_balances (example_server (VDict [])) example_api []
      = (example_server (VDict []) [time_request example_api] r_balances
         ≫= λ response, OKEXApi._result response true,
         [time_request example_api] ++ [r_balances])
    ∧ r_ticker = get_request example_api (VStr "2018-09-01T00:00:00.000Z")
                   ("/api/spot/v3/instruments/" +:+ "ETH-USDT" +:+ "ticker")
    ∧ r_depth = get_request example_api (VStr "2018-09-01T00:00:00.000Z")
                  ("/api/spot/v3/instruments/" +:+ "ETH-USDT" +:+ "/book")
    ∧ r_balances = get_request example_api (VStr "2018-09-01T00:00:00.000Z")
                     "/api/spot/v3/accounts"
    ∧ req_url r_ticker
      = OKEXApi.api_server example_api +:+ "/api/spot/v3/instruments/" +:+ "ETH-USDT"
        +:+ "ticker"
    ∧ req_url r_depth
      = OKEXApi.api_server example_api +:+ "/api/spot/v3/instruments/" +:+ "ETH-USDT"
        +:+ "/book"
    ∧ req_url r_balances = OKEXApi.api_server example_api +:+ "/api/spot/v3/accounts".
Proof.
  apply (market_data_requests (example_server (VDict [])) example_api "ETH-USDT" []
           [time_request example_api] (VStr "2018-09-01T00:00:00.000Z")).
  vm_compute. reflexivity.
Defined.
